(** * Cold-outreach engine: lead store, tracking endpoints and batch dispatch

    A shallow embedding of [server.py], [main.py] and [scripts/main.py].

    - A [leads] table is the list of its rows in rowid order; every column that
      SQLite lets be NULL is an [option].
    - The databases of all campaigns form one finite map from the database path
      to its [leads] table; [campaign_managers] is the dictionary of the same
      name.
    - The [PRIMARY KEY] on [email] belongs to the schema of a table, not to its
      rows: the one statement whose effect depends on the constraint, [INSERT
      OR IGNORE], takes a flag that tells whether the table carries it, and
      [primary_key] says of the rows that no address occurs twice.
    - [time.ctime()], the SMTP transport, [hashlib.sha256] and
      [email_validator.validate_email] are the environment: they are the
      variables of the section.
    - A caught Python exception is the branch that the [except] clause takes; an
      uncaught one inside a Flask view is the response [ServerError].
    - Calls to [logging] change nothing that is observed here and are left out.
      Every [UPDATE] is followed by its [commit] in the source, so a statement
      and its commit are one step. *)

From Stdlib Require Import ZArith.
From Stdlib.Strings Require Import Byte.
From stdpp Require Import gmap strings list fin_maps.

Local Open Scope Z_scope.
Local Open Scope string_scope.

(** ** Rows of the [leads] table *)

(** [CREATE TABLE leads (email TEXT PRIMARY KEY, first_name TEXT, status TEXT,
    timestamp TEXT, hash TEXT, opened_timestamp TEXT, email_sent INTEGER,
    interact_count INTEGER DEFAULT 0, last_interact_timestamp TEXT,
    sent_template TEXT, notes TEXT)] *)
Record Lead := {
  email : string;
  first_name : option string;
  status : option string;
  timestamp : option string;
  hash : option string;
  opened_timestamp : option string;
  email_sent : option Z;
  interact_count : option Z;
  last_interact_timestamp : option string;
  sent_template : option string;
  notes : option string
}.

Definition set_status (v : option string) (r : Lead) : Lead :=
  {| email := email r; first_name := first_name r; status := v;
     timestamp := timestamp r; hash := hash r;
     opened_timestamp := opened_timestamp r; email_sent := email_sent r;
     interact_count := interact_count r;
     last_interact_timestamp := last_interact_timestamp r;
     sent_template := sent_template r; notes := notes r |}.

Definition set_timestamp (v : option string) (r : Lead) : Lead :=
  {| email := email r; first_name := first_name r; status := status r;
     timestamp := v; hash := hash r;
     opened_timestamp := opened_timestamp r; email_sent := email_sent r;
     interact_count := interact_count r;
     last_interact_timestamp := last_interact_timestamp r;
     sent_template := sent_template r; notes := notes r |}.

Definition set_opened_timestamp (v : option string) (r : Lead) : Lead :=
  {| email := email r; first_name := first_name r; status := status r;
     timestamp := timestamp r; hash := hash r;
     opened_timestamp := v; email_sent := email_sent r;
     interact_count := interact_count r;
     last_interact_timestamp := last_interact_timestamp r;
     sent_template := sent_template r; notes := notes r |}.

Definition set_email_sent (v : option Z) (r : Lead) : Lead :=
  {| email := email r; first_name := first_name r; status := status r;
     timestamp := timestamp r; hash := hash r;
     opened_timestamp := opened_timestamp r; email_sent := v;
     interact_count := interact_count r;
     last_interact_timestamp := last_interact_timestamp r;
     sent_template := sent_template r; notes := notes r |}.

Definition set_interact_count (v : option Z) (r : Lead) : Lead :=
  {| email := email r; first_name := first_name r; status := status r;
     timestamp := timestamp r; hash := hash r;
     opened_timestamp := opened_timestamp r; email_sent := email_sent r;
     interact_count := v;
     last_interact_timestamp := last_interact_timestamp r;
     sent_template := sent_template r; notes := notes r |}.

Definition set_last_interact_timestamp (v : option string) (r : Lead) : Lead :=
  {| email := email r; first_name := first_name r; status := status r;
     timestamp := timestamp r; hash := hash r;
     opened_timestamp := opened_timestamp r; email_sent := email_sent r;
     interact_count := interact_count r;
     last_interact_timestamp := v;
     sent_template := sent_template r; notes := notes r |}.

Definition set_sent_template (v : option string) (r : Lead) : Lead :=
  {| email := email r; first_name := first_name r; status := status r;
     timestamp := timestamp r; hash := hash r;
     opened_timestamp := opened_timestamp r; email_sent := email_sent r;
     interact_count := interact_count r;
     last_interact_timestamp := last_interact_timestamp r;
     sent_template := v; notes := notes r |}.

Definition set_notes (v : option string) (r : Lead) : Lead :=
  {| email := email r; first_name := first_name r; status := status r;
     timestamp := timestamp r; hash := hash r;
     opened_timestamp := opened_timestamp r; email_sent := email_sent r;
     interact_count := interact_count r;
     last_interact_timestamp := last_interact_timestamp r;
     sent_template := sent_template r; notes := v |}.

(** ** SQL statements over one table *)

(** Python's truth value of a string that may be [None]. *)
Definition truthy (o : option string) : bool :=
  match o with
  | Some s => negb (String.eqb s "")
  | None => false
  end.

(** [column = ?] in a [WHERE] clause, and Python's [value == "..."] on a
    fetched column: NULL, or [None], equals no string. *)
Definition is_text (column : option string) (v : string) : bool :=
  match column with
  | Some c => String.eqb c v
  | None => false
  end.

(** [SELECT ... FROM leads WHERE hash = ?] followed by [fetchone()]. *)
Definition select_by_hash (h : string) (t : list Lead) : option Lead :=
  find (fun r => is_text (hash r) h) t.

(** [SELECT ... FROM leads WHERE email = ?] followed by [fetchone()]. *)
Definition select_by_email (e : string) (t : list Lead) : option Lead :=
  find (fun r => String.eqb (email r) e) t.

(** [UPDATE leads SET ... WHERE email = ?], the assignments being [f]. *)
Definition update_where_email (e : string) (f : Lead -> Lead) (t : list Lead)
  : list Lead :=
  map (fun r => if String.eqb (email r) e then f r else r) t.

(** [WHERE status = 'gray' AND (email_sent IS NULL OR email_sent = 0)] *)
Definition eligible (r : Lead) : bool :=
  is_text (status r) "gray" &&
  match email_sent r with
  | None => true
  | Some n => Z.eqb n 0
  end.

(** [SELECT email, first_name FROM leads WHERE ...] of the batch dispatcher. *)
Definition select_eligible (t : list Lead) : list (string * option string) :=
  map (fun r => (email r, first_name r)) (filter (fun r => eligible r = true) t).

(** The primary key of the table. *)
Definition primary_key (t : list Lead) : Prop := NoDup (map email t).

Definition emails (t : list Lead) : list string := map email t.

(** [INSERT INTO leads ...]: [None] is the [IntegrityError] that a taken
    primary key raises. *)
Definition insert_lead (r : Lead) (t : list Lead) : option (list Lead) :=
  if bool_decide (email r ∈ emails t) then None else Some (t ++ [r])%list.

(** [INSERT OR IGNORE INTO leads ...]. The conflict that SQLite ignores is
    the one with the [PRIMARY KEY] on [email], and [keyed] tells whether the
    table carries that constraint. The table that [CREATE TABLE IF NOT EXISTS
    leads (email TEXT PRIMARY KEY, ...)] has created carries it. The
    statement leaves an older table as it finds it, and the table that
    [migrate_counts.py] rebuilds with [CREATE TABLE leads_new AS SELECT ...]
    carries no constraint: there no insertion conflicts and every row is
    appended. *)
Definition insert_or_ignore (keyed : bool) (r : Lead) (t : list Lead)
  : list Lead :=
  if keyed && bool_decide (email r ∈ emails t) then t else (t ++ [r])%list.

(** [UPDATE leads SET email_sent = 0 WHERE email_sent IS NULL] *)
Definition email_sent_not_null (r : Lead) : Lead :=
  match email_sent r with
  | None => set_email_sent (Some 0) r
  | Some _ => r
  end.

(** [UPDATE leads SET interact_count = 0 WHERE interact_count IS NULL] *)
Definition interact_count_not_null (r : Lead) : Lead :=
  match interact_count r with
  | None => set_interact_count (Some 0) r
  | Some _ => r
  end.

(** Every row carries the digest of its address in [hash], as the rows that
    [load_csv_to_db] inserts do. *)
Definition hashes_stored (hash_email : string -> string) (t : list Lead) : Prop :=
  Forall (fun r => hash r = Some (hash_email (email r))) t.

(** One line of the CSV file as [csv.DictReader] yields it; [csv_first_name]
    is [None] when the file has no such column. *)
Record CsvRow := {
  csv_email : string;
  csv_first_name : option string
}.

(** ** Campaigns, effects and the state of the process *)

(** The attributes of [CampaignManager] that the operations below read. *)
Record CampaignManager := {
  name : string;
  db_path : string;
  from_email : string;      (* smtp_config["from_email"] *)
  delay : Z;                (* email_config["delay"] *)
  landing_page : string;
  email_template : string
}.

Definition get_db_path (manager : CampaignManager) : string := db_path manager.

(** What the process does to the outside world, oldest first. *)
Inductive effect :=
  | Smtp (to_addr : string) (delivered : bool)
      (* the campaign mail handed to [smtplib], and whether it went through *)
  | Notification (to_addr subject : string)
      (* [send_notification_email] *)
  | Sleep (seconds : Z).

Record State := {
  dbs : gmap string (list Lead);   (* database path |-> its leads table *)
  clock : nat;                     (* calls of [time.ctime()] so far *)
  outbox : list effect
}.

Inductive response :=
  | Body (text : string) (code : Z)
  | Image (bytes : list byte) (code : Z) (content_type : string)
  | Redirect (location : string)
  | Unauthorized
  | ServerError.

(** The 1x1 GIF that [track_open] returns. *)
Definition pixel : list byte :=
  [x47; x49; x46; x38; x39; x61; x01; x00; x01; x00; x80; x00; x00; xff; xff;
   xff; x00; x00; x00; x21; xf9; x04; x01; x00; x00; x00; x00; x2c; x00; x00;
   x00; x00; x01; x00; x01; x00; x00; x02; x02; x44; x01; x00; x3b].

(** [sqlite3.connect(path)] and a read of the whole table. [init_db] has
    created the table of every configured campaign when the module is
    imported, so a database that holds no row yet is the empty table. *)
Definition leads_of (path : string) (s : State) : list Lead :=
  default [] (dbs s !! path).

(** A statement on the table at [path] together with its [commit]. *)
Definition commit (path : string) (t : list Lead) (s : State) : State :=
  {| dbs := <[path := t]> (dbs s); clock := clock s; outbox := outbox s |}.

Definition emit (e : effect) (s : State) : State :=
  {| dbs := dbs s; clock := clock s; outbox := outbox s ++ [e] |}.

Definition tick (s : State) : State :=
  {| dbs := dbs s; clock := S (clock s); outbox := outbox s |}.

(** The row of [e] in the database at [path]. *)
Definition lead_at (path e : string) (s : State) : option Lead :=
  select_by_email e (leads_of path s).

(** ** [server.py] *)

Module Server.
Section Engine.

(** The dictionary [campaign_managers] built from [config.yaml]. *)
Variable campaign_managers : gmap string CampaignManager.
(** [ctime n] is what the call number [n] of [time.ctime()] returns. *)
Variable ctime : nat -> string.
(** Whether the transport delivers a mail to the given address, after
    everything the process has done so far. *)
Variable smtp_ok : list effect -> string -> bool.
(** [hashlib.sha256(email.encode()).hexdigest()] *)
Variable hash_email : string -> string.
(** The environment variable [DASHBOARD_PASSWORD]. *)
Variable dashboard_password : string.

Definition users : gmap string string := {[ "admin" := dashboard_password ]}.

Definition verify_password (username password : string) : option string :=
  match users !! username with
  | Some p => if String.eqb p password then Some username else None
  | None => None
  end.

(** [@auth.login_required]: the view runs only for credentials that
    [verify_password] accepts. *)
Definition login_required (credentials : option (string * string))
    (view : State -> State * response) (s : State) : State * response :=
  match credentials with
  | Some (username, password) =>
    match verify_password username password with
    | Some _ => view s
    | None => (s, Unauthorized)
    end
  | None => (s, Unauthorized)
  end.

Definition get_campaign_manager (campaign_name : option string)
  : option CampaignManager :=
  match campaign_name with
  | Some c => if truthy campaign_name then campaign_managers !! c else None
  | None => None
  end.

(** The three [UPDATE] statements of the tracking endpoints. *)
Definition opened_first (now : string) (new_count : Z) (r : Lead) : Lead :=
  set_status (Some "yellow")
    (set_opened_timestamp (Some now)
      (set_interact_count (Some new_count)
        (set_last_interact_timestamp (Some now) r))).

Definition interacted (now : string) (new_count : Z) (r : Lead) : Lead :=
  set_interact_count (Some new_count)
    (set_last_interact_timestamp (Some now) r).

Definition clicked (colour : string) (now : string) (new_count : Z) (r : Lead)
  : Lead :=
  set_status (Some colour) (interacted now new_count r).

(** The test [campaign_name and campaign_name in campaign_managers] is the one
    of [get_campaign_manager]. *)
Definition track_open (email_hash campaign_name : option string) (s : State)
  : State * response :=
  match email_hash with
  | Some h =>
    if negb (truthy email_hash) then (s, Body "" 200)
    else
      let s' :=
        match get_campaign_manager campaign_name with
        | Some manager =>
          let path := get_db_path manager in
          match select_by_hash h (leads_of path s) with
          | Some row =>
            match interact_count row with
            | Some current_count =>
              let new_count := current_count + 1 in
              let current_time := ctime (clock s) in
              let s1 := tick s in
              if negb (truthy (opened_timestamp row)) then
                commit path
                  (update_where_email (email row)
                     (opened_first current_time new_count) (leads_of path s1)) s1
              else
                commit path
                  (update_where_email (email row)
                     (interacted current_time new_count) (leads_of path s1)) s1
            | None => s     (* TypeError, caught by [except Exception] *)
            end
          | None => s
          end
        | None => s
        end in
      (s', Image pixel 200 "image/gif")
  | None => (s, Body "" 200)
  end.

Definition green_url (campaign_name : string) : string :=
  "https://nma.themysticaroma.com/green?campaign=" ++ campaign_name.

Definition track_link (email_hash destination campaign : option string)
    (s : State) : State * response :=
  let campaign_name := default "poland" campaign in
  match email_hash, destination with
  | Some h, Some dest =>
    if negb (truthy email_hash) || negb (truthy destination)
    then (s, Body "Invalid request" 400)
    else
      match get_campaign_manager (Some campaign_name) with
      | None => (s, ServerError)   (* [None.get_db_path()]: AttributeError *)
      | Some manager =>
        let path := get_db_path manager in
        let s' :=
          match select_by_hash h (leads_of path s) with
          | Some row =>
            match interact_count row with
            | Some current_count =>
              let new_count := current_count + 1 in
              let current_time := ctime (clock s) in
              let s1 := tick s in
              if String.prefix (green_url campaign_name) dest then
                commit path
                  (update_where_email (email row)
                     (clicked "green" current_time new_count) (leads_of path s1)) s1
              else if negb (is_text (status row) "red") then
                commit path
                  (update_where_email (email row)
                     (clicked "yellow" current_time new_count) (leads_of path s1)) s1
              else
                commit path
                  (update_where_email (email row)
                     (interacted current_time new_count) (leads_of path s1)) s1
            | None => s     (* TypeError, caught by [except Exception] *)
            end
          | None => s
          end in
        (s', Redirect dest)
      end
  | _, _ => (s, Body "Invalid request" 400)
  end.

(** [UPDATE leads SET status = ?, timestamp = ? WHERE email = ?] *)
Definition moved (new_status : option string) (now : string) (r : Lead) : Lead :=
  set_status new_status (set_timestamp (Some now) r).

(** The loop of [green] over [fetchall()]: the first row whose recomputed
    hash is the one requested. *)
Definition find_by_recomputed_hash (h : string) (t : list Lead) : option Lead :=
  find (fun r => String.eqb (hash_email (email r)) h) t.

Definition green (email_hash campaign : option string) (s : State)
  : State * response :=
  let campaign_name := default "poland" campaign in
  if negb (truthy email_hash) then (s, Body "Invalid request" 400)
  else
    match get_campaign_manager (Some campaign_name) with
    | None => (s, ServerError)     (* [None.get_db_path()]: AttributeError *)
    | Some manager =>
      let path := get_db_path manager in
      match find_by_recomputed_hash (default "" email_hash) (leads_of path s) with
      | Some row =>
        let current_time := ctime (clock s) in
        let s1 := tick s in
        let s2 :=
          commit path
            (update_where_email (email row) (moved (Some "green") current_time)
               (leads_of path s1)) s1 in
        let s3 := emit (Notification (from_email manager) "New Interested Lead") s2 in
        if negb (truthy (Some (email row))) then (s3, Body "Lead not found" 404)
        else (s3, Redirect (landing_page manager))
      | None => (s, Body "Lead not found" 404)
      end
    end.

Definition move_lead (credentials : option (string * string))
    (email new_status campaign : option string) : State -> State * response :=
  login_required credentials (fun s =>
    let campaign_name := default "poland" campaign in
    match get_campaign_manager (Some campaign_name) with
    | None => (s, ServerError)     (* [None.get_db_path()]: AttributeError *)
    | Some manager =>
      let path := get_db_path manager in
      let now := ctime (clock s) in
      let s1 := tick s in
      let t :=
        match email with
        | Some e => update_where_email e (moved new_status now) (leads_of path s1)
        | None => leads_of path s1       (* [email = NULL] selects no row *)
        end in
      (commit path t s1, Redirect ("/dashboard?campaign=" ++ campaign_name))
    end).

(** [UPDATE leads SET email_sent = 1, interact_count = ?, timestamp = ?,
    sent_template = ?, last_interact_timestamp = ? WHERE email = ?] *)
Definition sent (new_count : Z) (stamp : string) (template : string)
    (stamp' : string) (r : Lead) : Lead :=
  set_email_sent (Some 1)
    (set_interact_count (Some new_count)
      (set_timestamp (Some stamp)
        (set_sent_template (Some template)
          (set_last_interact_timestamp (Some stamp') r)))).

(** [result and result[0] in ["green", "red", "blue"]] *)
Definition decided (result : option Lead) : bool :=
  match result with
  | Some r =>
      is_text (status r) "green" || is_text (status r) "red"
      || is_text (status r) "blue"
  | None => false
  end.

(** [result[1] if result else 0] *)
Definition count_of (result : option Lead) : option Z :=
  match result with
  | Some r => interact_count r
  | None => Some 0
  end.

(** The template is taken to render; the message reaches the transport
    only, and what the store sees of a send is its outcome. *)
Definition send_email (manager : CampaignManager) (email : string)
    (first_name : option string) (s : State) : State * bool :=
  let path := get_db_path manager in
  let result := select_by_email email (leads_of path s) in
  if decided result then (s, false)
  else
    let delivered := smtp_ok (outbox s) email in
    let s1 := emit (Smtp email delivered) s in
    let failed :=
      commit path
        (update_where_email email (set_email_sent (Some 0)) (leads_of path s1)) s1 in
    if delivered then
      match count_of result with
      | Some current_count =>
        let s2 := tick (tick s1) in
        (commit path
           (update_where_email email
              (sent (current_count + 1) (ctime (clock s1))
                 (email_template manager) (ctime (S (clock s1))))
              (leads_of path s2)) s2, true)
      | None => (failed, false)   (* TypeError, caught by [except Exception] *)
      end
    else (failed, false).

(** The [for] loop of [run_campaign] over the rows it has fetched. *)
Fixpoint for_each_lead (manager : CampaignManager)
    (leads : list (string * option string)) (s : State) : State :=
  match leads with
  | [] => s
  | (email, first_name) :: rest =>
    let (s1, ok) := send_email manager email first_name s in
    for_each_lead manager rest
      (if ok then emit (Sleep (delay manager)) s1 else s1)
  end.

(** [while True]: [None] when [fuel] rounds were not enough to empty the
    selection. *)
Fixpoint run_campaign (fuel : nat) (manager : CampaignManager) (s : State)
  : option State :=
  match fuel with
  | O => None
  | S fuel' =>
    match select_eligible (leads_of (get_db_path manager) s) with
    | [] => Some s
    | leads => run_campaign fuel' manager (for_each_lead manager leads s)
    end
  end.

End Engine.
End Server.

(** ** [main.py] *)

Module Main.
Section Engine.

Variable ctime : nat -> string.
Variable smtp_ok : list effect -> string -> bool.
Variable hash_email : string -> string.
(** [validate_email(..., check_deliverability=False)] raises
    [EmailNotValidError] exactly when this is [false]. *)
Variable validate_email : string -> bool.

(** The row updates of [CampaignManager.init_db]; setting a NULL
    [last_interact_timestamp] to NULL changes nothing. *)
Definition init_db (manager : CampaignManager) (s : State) : State :=
  let path := get_db_path manager in
  commit path
    (map interact_count_not_null (map email_sent_not_null (leads_of path s))) s.

(** [(email, row.get('first_name', ''), 'gray', time.ctime(), email_hash, 0, 0,
    None)] for the columns [email, first_name, status, timestamp, hash,
    email_sent, interact_count, last_interact_timestamp]. *)
Definition new_lead (row : CsvRow) (now : string) : Lead :=
  {| email := csv_email row;
     first_name := Some (default "" (csv_first_name row));
     status := Some "gray";
     timestamp := Some now;
     hash := Some (hash_email (csv_email row));
     opened_timestamp := None;
     email_sent := Some 0;
     interact_count := Some 0;
     last_interact_timestamp := None;
     sent_template := None;
     notes := None |}.

(** What the loop of [load_csv_to_db] carries from one line to the next. *)
Record Loading := {
  table : list Lead;
  existing_emails : gset string;
  now_at : nat;
  new_leads : Z;
  skipped_duplicates : Z
}.

Fixpoint load_rows (rows : list CsvRow) (l : Loading) : option Loading :=
  match rows with
  | [] => Some l
  | row :: rest =>
    if validate_email (csv_email row) then
      let email := csv_email row in
      if bool_decide (email ∈ existing_emails l) then
        load_rows rest
          {| table := table l; existing_emails := existing_emails l;
             now_at := now_at l; new_leads := new_leads l;
             skipped_duplicates := skipped_duplicates l + 1 |}
      else
        match insert_lead (new_lead row (ctime (now_at l))) (table l) with
        | Some t =>
          load_rows rest
            {| table := t; existing_emails := {[ email ]} ∪ existing_emails l;
               now_at := S (now_at l); new_leads := new_leads l + 1;
               skipped_duplicates := skipped_duplicates l |}
        | None => None          (* IntegrityError: not caught *)
        end
    else load_rows rest l       (* EmailNotValidError: logged *)
  end.

(** [Some (state, (new_leads, skipped_duplicates))], or [None] when an
    exception escapes before the [commit]. *)
Definition load_csv_to_db (rows : list CsvRow) (manager : CampaignManager)
    (s : State) : option (State * (Z * Z)) :=
  let path := get_db_path manager in
  let t := leads_of path s in
  match load_rows rows
          {| table := t; existing_emails := list_to_set (emails t);
             now_at := clock s; new_leads := 0; skipped_duplicates := 0 |} with
  | Some l =>
    Some (commit path (table l)
            {| dbs := dbs s; clock := now_at l; outbox := outbox s |},
          (new_leads l, skipped_duplicates l))
  | None => None
  end.

(** [template_path[1:]] when the path starts with ["/templates/"]. *)
Definition relative (template_path : option string) : option string :=
  match template_path with
  | Some p =>
    if truthy template_path && String.prefix "/templates/" p
    then Some (match p with String _ rest => rest | EmptyString => p end)
    else template_path
  | None => None
  end.

(** [template_path or 'email.html'] *)
Definition or_default (template_path : option string) : string :=
  if truthy template_path then default "" template_path else "email.html".

(** [attachment] is the size in bytes of the file at [attachment_path] when
    the path is given and names a file. The template is taken to render; the
    message that is built from it reaches the transport only. *)
Definition send_email (manager : CampaignManager) (email : string)
    (first_name : option string) (attachment : option Z)
    (template_path : option string) (s : State) : State * bool :=
  let path := get_db_path manager in
  let result := select_by_email email (leads_of path s) in
  if Server.decided result then (s, false)
  else
    let template_path := relative template_path in
    let too_large :=
      match attachment with
      | Some size => Z.ltb (5 * 1024 * 1024) size
      | None => false
      end in
    if too_large then
      (commit path
         (update_where_email email (set_email_sent (Some 0)) (leads_of path s)) s,
       false)
    else
      let delivered := smtp_ok (outbox s) email in
      let s1 := emit (Smtp email delivered) s in
      let failed :=
        commit path
          (update_where_email email (set_email_sent (Some 0)) (leads_of path s1))
          s1 in
      if delivered then
        match Server.count_of result with
        | Some current_count =>
          let s2 := tick (tick s1) in
          (commit path
             (update_where_email email
                (Server.sent (current_count + 1) (ctime (clock s1))
                   (or_default template_path) (ctime (S (clock s1))))
                (leads_of path s2)) s2, true)
        | None => (failed, false)  (* TypeError, caught by [except Exception] *)
        end
      else (failed, false).

(** The [for] loop of the [send] action, carrying [sent_count]. *)
Fixpoint for_each_lead (manager : CampaignManager) (attachment : option Z)
    (template_path : option string) (leads : list (string * option string))
    (sent_count : Z) (s : State) : State * Z :=
  match leads with
  | [] => (s, sent_count)
  | (email, first_name) :: rest =>
    let (s1, ok) := send_email manager email first_name attachment template_path s in
    if ok then
      for_each_lead manager attachment template_path rest (sent_count + 1)
        (emit (Sleep (delay manager)) s1)
    else
      let path := get_db_path manager in
      for_each_lead manager attachment template_path rest sent_count
        (commit path
           (update_where_email email (set_email_sent (Some 0)) (leads_of path s1))
           s1)
  end.

(** [main()] with the action [send]: the final state and [sent_count]. *)
Definition main_send (manager : CampaignManager) (attachment : option Z)
    (template_path : option string) (s : State) : State * Z :=
  let leads := select_eligible (leads_of (get_db_path manager) s) in
  for_each_lead manager attachment template_path leads 0 s.

End Engine.
End Main.

(** ** [scripts/main.py] *)

Module Scripts.
Section Engine.

Variable ctime : nat -> string.
Variable hash_email : string -> string.
Variable validate_email : string -> bool.

(** The row update of [init_db(db_path)]. *)
Definition init_db (db_path : string) (s : State) : State :=
  commit db_path (map email_sent_not_null (leads_of db_path s)) s.

(** [(row['email'], row.get('first_name', ''), 'gray', time.ctime(),
    email_hash, 0)] for the columns [email, first_name, status, timestamp,
    hash, email_sent]; [interact_count] takes the default of its column. *)
Definition new_lead (row : CsvRow) (now : string) : Lead :=
  {| email := csv_email row;
     first_name := Some (default "" (csv_first_name row));
     status := Some "gray";
     timestamp := Some now;
     hash := Some (hash_email (csv_email row));
     opened_timestamp := None;
     email_sent := Some 0;
     interact_count := Some 0;
     last_interact_timestamp := None;
     sent_template := None;
     notes := None |}.

(** The [for] loop of [load_csv_to_db] over the lines of the file; [keyed]
    is the schema of the table, as for [insert_or_ignore]. *)
Fixpoint load_rows (keyed : bool) (rows : list CsvRow) (t : list Lead)
    (now_at : nat) : list Lead * nat :=
  match rows with
  | [] => (t, now_at)
  | row :: rest =>
    if validate_email (csv_email row) then
      load_rows keyed rest
        (insert_or_ignore keyed (new_lead row (ctime now_at)) t) (S now_at)
    else load_rows keyed rest t now_at     (* EmailNotValidError: logged *)
  end.

(** [keyed]: the [leads] table of the database at [db_path] carries the
    [PRIMARY KEY] on [email]. [init_db] creates the table with it when the
    database has no [leads] table, and does not alter a table that is
    there. *)
Definition load_csv_to_db (keyed : bool) (rows : list CsvRow)
    (db_path : string) (s : State) : State :=
  let s0 := init_db db_path s in
  let (t, now_at) := load_rows keyed rows (leads_of db_path s0) (clock s0) in
  commit db_path t {| dbs := dbs s0; clock := now_at; outbox := outbox s0 |}.

End Engine.
End Scripts.

(** ** [server.py]: the unsubscribe view and the other dashboard actions *)

(** [CREATE TABLE lead_details (id INTEGER PRIMARY KEY AUTOINCREMENT, email
    TEXT, name TEXT, position TEXT, phone TEXT, message TEXT, submitted_at
    TEXT, FOREIGN KEY(email) REFERENCES leads(email))] *)
Record LeadDetail := {
  detail_id : Z;
  detail_email : option string;
  detail_name : option string;
  position : option string;
  phone : option string;
  message : option string;
  submitted_at : option string
}.

(** The state together with the [lead_details] table of every database. *)
Record Store := {
  leads_db : State;
  lead_details : gmap string (list LeadDetail)
}.

(** [DELETE FROM leads WHERE email = ?] *)
Definition delete_where_email (e : string) (t : list Lead) : list Lead :=
  filter (fun r => email r <> e) t.

(** [DELETE FROM lead_details WHERE email = ?] *)
Definition delete_details_where_email (e : string) (d : list LeadDetail)
  : list LeadDetail :=
  filter (fun x => detail_email x <> Some e) d.

Module Views.
Section Engine.

Variable campaign_managers : gmap string CampaignManager.
Variable ctime : nat -> string.
Variable hash_email : string -> string.
Variable dashboard_password : string.
(** [render_template_string] on the page of the unsubscribe view, for the
    values of [email], [hash] and [campaign]. *)
Variable unsubscribed_page : string -> string -> string -> string.

Definition red (email_hash campaign : option string) (s : State)
  : State * response :=
  let campaign_name := default "poland" campaign in
  if negb (truthy email_hash) then (s, Body "Invalid request" 400)
  else
    match Server.get_campaign_manager campaign_managers (Some campaign_name) with
    | None => (s, ServerError)     (* [None.get_db_path()]: AttributeError *)
    | Some manager =>
      let path := get_db_path manager in
      let h := default "" email_hash in
      match Server.find_by_recomputed_hash hash_email h (leads_of path s) with
      | Some row =>
        let current_time := ctime (clock s) in
        let s1 := tick s in
        let s2 :=
          commit path
            (update_where_email (email row)
               (Server.moved (Some "red") current_time) (leads_of path s1)) s1 in
        let s3 := emit (Notification (from_email manager) "Lead Unsubscribed") s2 in
        if negb (truthy (Some (email row))) then (s3, Body "Lead not found" 404)
        else (s3, Body (unsubscribed_page (email row) h campaign_name) 200)
      | None => (s, Body "Lead not found" 404)
      end
    end.

Definition update_notes (credentials : option (string * string))
    (email notes campaign : option string) : State -> State * response :=
  Server.login_required dashboard_password credentials (fun s =>
    let campaign_name := default "poland" campaign in
    match Server.get_campaign_manager campaign_managers (Some campaign_name) with
    | None => (s, ServerError)     (* [None.get_db_path()]: AttributeError *)
    | Some manager =>
      let path := get_db_path manager in
      let t :=
        match email with
        | Some e => update_where_email e (set_notes notes) (leads_of path s)
        | None => leads_of path s        (* [email = NULL] selects no row *)
        end in
      (commit path t s, Redirect ("/dashboard?campaign=" ++ campaign_name))
    end).

(** [delete_lead] writes to both tables, so [@auth.login_required] is
    written out here as [Server.login_required] has it. *)
Definition delete_lead (credentials : option (string * string))
    (email campaign : option string) (st : Store) : Store * response :=
  let view :=
    let s := leads_db st in
    let campaign_name := default "poland" campaign in
    match Server.get_campaign_manager campaign_managers (Some campaign_name) with
    | None => (st, ServerError)    (* [None.get_db_path()]: AttributeError *)
    | Some manager =>
      let path := get_db_path manager in
      let d := default [] (lead_details st !! path) in
      let '(t', d') :=
        match email with
        | Some e =>
          (delete_where_email e (leads_of path s),
           delete_details_where_email e d)
        | None => (leads_of path s, d)   (* [email = NULL] selects no row *)
        end in
      ({| leads_db := commit path t' s;
          lead_details := <[path := d']> (lead_details st) |},
       Redirect ("/dashboard?campaign=" ++ campaign_name))
    end in
  match credentials with
  | Some (username, password) =>
    match Server.verify_password dashboard_password username password with
    | Some _ => view
    | None => (st, Unauthorized)
    end
  | None => (st, Unauthorized)
  end.

End Engine.
End Views.

(** ** [scripts/main.py]: sending one mail *)

Module ScriptsSender.
Section Engine.

Variable smtp_ok : list effect -> string -> bool.

(** [result and result[0] in ['green', 'red']] *)
Definition decided (result : option Lead) : bool :=
  match result with
  | Some r => is_text (status r) "green" || is_text (status r) "red"
  | None => false
  end.

(** [attachment] is the size in bytes of the file at [attachment_path] when
    the path is given and names a file; the template is taken to render. *)
Definition send_email (email : string) (first_name : option string)
    (db_path : string) (attachment : option Z) (s : State) : State * bool :=
  let s0 := Scripts.init_db db_path s in
  let result := select_by_email email (leads_of db_path s0) in
  if decided result then (s0, false)
  else
    let too_large :=
      match attachment with
      | Some size => Z.ltb (5 * 1024 * 1024) size
      | None => false
      end in
    if too_large then
      (commit db_path
         (update_where_email email (set_email_sent (Some 0)) (leads_of db_path s0))
         s0, false)
    else
      let delivered := smtp_ok (outbox s0) email in
      let s1 := emit (Smtp email delivered) s0 in
      if delivered then
        (commit db_path
           (update_where_email email (set_email_sent (Some 1))
              (leads_of db_path s1)) s1, true)
      else
        (commit db_path
           (update_where_email email (set_email_sent (Some 0))
              (leads_of db_path s1)) s1, false).

End Engine.
End ScriptsSender.

(** ** Notions in which the properties are stated *)

(** The attachment, when there is one, is within the limit of 5 MiB. *)
Definition fits (attachment : option Z) : Prop :=
  match attachment with
  | Some size => size <= 5 * 1024 * 1024
  | None => True
  end.

(** The campaign mails handed to the transport, oldest first, each with its
    outcome. *)
Definition attempts (o : list effect) : list (string * bool) :=
  omap (fun x => match x with
                 | Smtp to_addr delivered => Some (to_addr, delivered)
                 | _ => None
                 end) o.

(** From [s] to [s'] every lead of [leads] was handed to the transport once,
    in order and whatever became of the leads before it, and its row at
    [path] records the outcome in [email_sent]. *)
Definition all_attempted (path : string) (leads : list (string * option string))
    (s s' : State) : Prop :=
  exists outcomes : list bool,
    length outcomes = length leads
    /\ attempts (outbox s') =
       (attempts (outbox s) ++ zip (leads.*1) outcomes)%list
    /\ forall (i : nat) (e : string) (delivered : bool),
         leads.*1 !! i = Some e ->
         outcomes !! i = Some delivered ->
         exists r',
           lead_at path e s' = Some r'
           /\ email_sent r' = Some (if delivered then 1 else 0).

(** The row of [e] at [path] is one that [send_email] does not skip and
    whose counter [init_db] has set. *)
Definition ready (path : string) (s : State) (e : string) : Prop :=
  exists r,
    lead_at path e s = Some r
    /\ Server.decided (Some r) = false
    /\ interact_count r <> None.

(** The transport refuses an address at most until it has been tried: a
    mail to an address that the outbox has a mail to already is delivered. *)
Definition retry_delivers (smtp_ok : list effect -> string -> bool) : Prop :=
  forall o to_addr delivered,
    Smtp to_addr delivered ∈ o -> smtp_ok o to_addr = true.

(** Every line of the file is refused by the validator or names a lead that
    the table already has. *)
Definition all_known (validate_email : string -> bool) (rows : list CsvRow)
    (t : list Lead) : Prop :=
  forall row, row ∈ rows -> validate_email (csv_email row) = true ->
    csv_email row ∈ emails t.

(** [existing_emails] is the set of the addresses of the table. *)
Definition in_step (l : Main.Loading) : Prop :=
  forall e, e ∈ Main.existing_emails l <-> e ∈ emails (Main.table l).

(** The columns that no tracking event writes. *)
Definition kept_columns (r : Lead)
  : string * option string * option string * option string * option Z
    * option string * option string :=
  (email r, first_name r, timestamp r, hash r, email_sent r, sent_template r,
   notes r).

(** From [s] to [s'] nothing happened, or one row of some table, whose
    counter was [m], was rewritten by an update that sets the counter to
    [m + 1] and keeps [kept_columns], and the clock was read once. *)
Definition tracked (s s' : State) : Prop :=
  s' = s
  \/ exists (path : string) (row : Lead) (m : Z) (f : Lead -> Lead),
       row ∈ leads_of path s
       /\ interact_count row = Some m
       /\ s' = commit path
                 (update_where_email (email row) f (leads_of path s)) (tick s)
       /\ forall r,
            kept_columns (f r) = kept_columns r
            /\ interact_count (f r) = Some (m + 1).

(** The lead [e] at [path] is selected by the dispatcher, and its mail cannot
    be recorded as sent: its counter is NULL, or the transport never delivers
    to it. *)
Definition stuck (smtp_ok : list effect -> string -> bool) (path e : string)
    (s : State) : Prop :=
  exists r,
    lead_at path e s = Some r
    /\ eligible r = true
    /\ (interact_count r = None \/ forall o, smtp_ok o e = false).

(** One turn hands at most one mail to the transport, and to the address of
    its lead. *)
Definition at_most_its_own (step : string * option string -> State -> State)
  : Prop :=
  forall l s, exists new,
    attempts (outbox (step l s)) = (attempts (outbox s) ++ new)%list
    /\ new.*1 `sublist_of` [l.1].

(** A row as an import writes it: gray, never opened, not sent, no
    interaction, and the digest of its address in [hash]. *)
Definition freshly_imported (hash_email : string -> string) (r : Lead) : Prop :=
  status r = Some "gray"
  /\ opened_timestamp r = None
  /\ email_sent r = Some 0
  /\ interact_count r = Some 0
  /\ hash r = Some (hash_email (email r)).

(** [init_db] has left no NULL in the two integer columns. *)
Definition initialised (r : Lead) : Prop :=
  email_sent r <> None /\ interact_count r <> None.

(** ** A small campaign on which the operations are run *)

Module Sample.

Definition poland : CampaignManager :=
  {| name := "poland"; db_path := "poland.db";
     from_email := "sales@example.com"; delay := 5;
     landing_page := "https://example.com/landing";
     email_template := "email.html" |}.

Definition registry : gmap string CampaignManager := {[ "poland" := poland ]}.

(** A clock whose readings are all different and none empty. *)
Fixpoint stamp (n : nat) : string :=
  match n with
  | O => "Thu Jan  1 00:00:00 1970"
  | S k => stamp k ++ "+"
  end.

(** A lead as [load_csv_to_db] inserts it, then moved to [colour]. *)
Definition lead (e token colour : string) (count : Z) : Lead :=
  {| email := e; first_name := Some ""; status := Some colour;
     timestamp := Some (stamp 0); hash := Some token;
     opened_timestamp := None; email_sent := Some 0;
     interact_count := Some count; last_interact_timestamp := None;
     sent_template := None; notes := None |}.

(** A stand-in for the digest: one token per address. *)
Definition digest (e : string) : string := "sha256:" ++ e.

(** A transport that delivers every mail, and one that delivers every mail
    but those to [bad]. *)
Definition delivers : list effect -> string -> bool := fun _ _ => true.
Definition fails_for (bad : string) : list effect -> string -> bool :=
  fun _ to_addr => negb (String.eqb to_addr bad).

(** A transport that fails the first mail to [bad] and delivers every
    other one. *)
Definition fails_once_for (bad : string) : list effect -> string -> bool :=
  fun o to_addr =>
    negb (String.eqb to_addr bad)
    || existsb (fun x => match x with
                         | Smtp a _ => String.eqb a bad
                         | _ => false
                         end) o.

(** A stand-in for the validator: an address has an [@] in it. *)
Definition validator (e : string) : bool :=
  match String.index 0 "@" e with
  | Some _ => true
  | None => false
  end.

Definition store (t : list Lead) : State :=
  {| dbs := {[ "poland.db" := t ]}; clock := 1; outbox := [] |}.

End Sample.

(** Closes a premise that is decided by running the model. *)
Ltac run :=
  first [ vm_compute; solve [reflexivity | discriminate]
        | unfold primary_key; apply (bool_decide_unpack _); vm_compute;
          exact I ].

(** * Properties *)

(** ** Tables *)

Section Tables.
Implicit Types (t : list Lead) (r row : Lead) (f : Lead -> Lead) (e h : string).

Lemma truthy_Some (s : string) : truthy (Some s) = true <-> s <> "".
Proof.
  unfold truthy. rewrite negb_true_iff. apply String.eqb_neq.
Qed.

Lemma is_text_true (o : option string) (v : string) :
  is_text o v = true <-> o = Some v.
Proof.
  destruct o as [c|]; simpl.
  - rewrite String.eqb_eq. split; congruence.
  - split; discriminate.
Qed.

Lemma emails_update e f t :
  (forall r, email (f r) = email r) ->
  emails (update_where_email e f t) = emails t.
Proof.
  intros Hf. unfold emails, update_where_email.
  induction t as [|r t IH]; simpl; [done|].
  rewrite IH. f_equal. by destruct (String.eqb (email r) e).
Qed.

Lemma select_by_email_update e f t :
  (forall r, email (f r) = email r) ->
  select_by_email e (update_where_email e f t) = f <$> select_by_email e t.
Proof.
  intros Hf. unfold select_by_email, update_where_email.
  induction t as [|r t IH]; simpl; [done|].
  destruct (String.eqb (email r) e) eqn:Hr.
  - by rewrite Hf, Hr.
  - by rewrite Hr.
Qed.

Lemma select_by_email_update_ne e e' f t :
  (forall r, email (f r) = email r) ->
  e' <> e ->
  select_by_email e' (update_where_email e f t) = select_by_email e' t.
Proof.
  intros Hf Hne. unfold select_by_email, update_where_email.
  induction t as [|r t IH]; simpl; [done|].
  destruct (String.eqb (email r) e) eqn:Hr.
  - apply String.eqb_eq in Hr. rewrite Hf.
    assert (String.eqb (email r) e' = false) as ->
      by (apply String.eqb_neq; congruence).
    done.
  - by rewrite IH.
Qed.

Lemma select_by_hash_update h f t row :
  (forall r, hash (f r) = hash r) ->
  select_by_hash h t = Some row ->
  select_by_hash h (update_where_email (email row) f t) = Some (f row).
Proof.
  intros Hf. unfold select_by_hash, update_where_email.
  induction t as [|r t IH]; simpl; [done|].
  destruct (is_text (hash r) h) eqn:Hr.
  - intros [= ->]. by rewrite String.eqb_refl, Hf, Hr.
  - intros Hrow.
    destruct (String.eqb (email r) (email row)); rewrite ?Hf, Hr; auto.
Qed.


Lemma select_by_hash_elem h t row :
  select_by_hash h t = Some row -> row ∈ t /\ hash row = Some h.
Proof.
  unfold select_by_hash. intros H. apply find_some in H as [Hin Hh].
  split; [by apply list_elem_of_In | by apply is_text_true].
Qed.



Lemma select_by_email_primary_key t r :
  primary_key t -> r ∈ t -> select_by_email (email r) t = Some r.
Proof.
  unfold primary_key, select_by_email.
  induction t as [|r' t IH]; simpl; intros Hk Hin.
  - by apply elem_of_nil in Hin.
  - apply NoDup_cons in Hk as [Hnotin Hk].
    apply elem_of_cons in Hin as [->|Hin].
    + by rewrite String.eqb_refl.
    + destruct (String.eqb (email r') (email r)) eqn:Hr; [|auto].
      apply String.eqb_eq in Hr. exfalso. apply Hnotin. rewrite Hr.
      by apply list_elem_of_fmap_2.
Qed.

End Tables.

(** ** The state *)

Section States.
Implicit Types (s : State) (t : list Lead) (path : string).

Lemma leads_of_commit path t s : leads_of path (commit path t s) = t.
Proof. unfold leads_of, commit; simpl. by rewrite lookup_insert_eq. Qed.

Lemma leads_of_commit_ne path path' t s :
  path <> path' -> leads_of path' (commit path t s) = leads_of path' s.
Proof. intros Hne. unfold leads_of, commit; simpl. by rewrite lookup_insert_ne. Qed.

Lemma leads_of_tick path s : leads_of path (tick s) = leads_of path s.
Proof. done. Qed.

Lemma leads_of_emit path e s : leads_of path (emit e s) = leads_of path s.
Proof. done. Qed.

End States.

(** ** The tracking endpoints of [server.py] *)

Section Tracking.
Variable campaign_managers : gmap string CampaignManager.
Variable ctime : nat -> string.

Local Abbreviation get_campaign_manager := (Server.get_campaign_manager campaign_managers).
Local Abbreviation track_open := (Server.track_open campaign_managers ctime).
Local Abbreviation track_link := (Server.track_link campaign_managers ctime).

Implicit Types (s : State) (row : Lead) (manager : CampaignManager).
Implicit Types (h c dest : string) (n : Z).

Lemma get_campaign_manager_Some c manager :
  get_campaign_manager (Some c) = Some manager <->
  c <> "" /\ campaign_managers !! c = Some manager.
Proof.
  unfold Server.get_campaign_manager.
  destruct (truthy (Some c)) eqn:Hc.
  - apply truthy_Some in Hc. tauto.
  - split; [discriminate|]. intros [Hne _].
    apply truthy_Some in Hne. congruence.
Qed.

(** What an open event does to the state when its token resolves. *)
Lemma track_open_resolved h campaign_name manager s row n :
  h <> "" ->
  get_campaign_manager campaign_name = Some manager ->
  select_by_hash h (leads_of (db_path manager) s) = Some row ->
  interact_count row = Some n ->
  track_open (Some h) campaign_name s =
    (commit (db_path manager)
       (update_where_email (email row)
          (if truthy (opened_timestamp row)
           then Server.interacted (ctime (clock s)) (n + 1)
           else Server.opened_first (ctime (clock s)) (n + 1))
          (leads_of (db_path manager) s))
       (tick s),
     Image pixel 200 "image/gif").
Proof.
  intros Hh Hm Hrow Hn. unfold Server.track_open.
  apply truthy_Some in Hh. rewrite Hh, Hm. simpl.
  unfold get_db_path. rewrite Hrow, Hn.
  by destruct (truthy (opened_timestamp row)).
Qed.

(** What a click event does to the state when its token resolves. *)
Lemma track_link_resolved h dest c manager s row n :
  h <> "" -> dest <> "" ->
  get_campaign_manager (Some c) = Some manager ->
  select_by_hash h (leads_of (db_path manager) s) = Some row ->
  interact_count row = Some n ->
  track_link (Some h) (Some dest) (Some c) s =
    (commit (db_path manager)
       (update_where_email (email row)
          (if String.prefix (Server.green_url c) dest
           then Server.clicked "green" (ctime (clock s)) (n + 1)
           else if is_text (status row) "red"
           then Server.interacted (ctime (clock s)) (n + 1)
           else Server.clicked "yellow" (ctime (clock s)) (n + 1))
          (leads_of (db_path manager) s))
       (tick s),
     Redirect dest).
Proof.
  intros Hh Hd Hm Hrow Hn. unfold Server.track_link.
  apply truthy_Some in Hh, Hd. rewrite Hh, Hd. cbn [negb orb default from_option id].
  rewrite Hm. unfold get_db_path. rewrite Hrow, Hn.
  destruct (String.prefix (Server.green_url c) dest); [done|].
  by destruct (is_text (status row) "red").
Qed.

(** C2 (as amended). A first open event -- the token resolves to a lead whose
    [opened_timestamp] is unset -- on a lead whose status is anything but red
    (green and blue included) moves the lead to yellow, stamps
    [opened_timestamp] and adds one to [interact_count]. *)
Theorem first_open_moves_to_yellow h campaign_name manager s row n :
  h <> "" ->
  get_campaign_manager campaign_name = Some manager ->
  select_by_hash h (leads_of (db_path manager) s) = Some row ->
  interact_count row = Some n ->
  truthy (opened_timestamp row) = false ->
  status row <> Some "red" ->
  exists row',
    select_by_hash h
      (leads_of (db_path manager) (track_open (Some h) campaign_name s).1)
    = Some row'
    /\ email row' = email row
    /\ status row' = Some "yellow"
    /\ opened_timestamp row' = Some (ctime (clock s))
    /\ interact_count row' = Some (n + 1).
Proof.
  intros Hh Hm Hrow Hn Hopened _.
  rewrite (track_open_resolved h campaign_name manager s row n) by done.
  rewrite Hopened. cbn [fst]. rewrite leads_of_commit.
  exists (Server.opened_first (ctime (clock s)) (n + 1) row).
  split; [|done]. by apply select_by_hash_update.
Qed.

(** C3 (as amended). A click on a destination that is not the interested
    marker leaves a red lead red and adds one to its [interact_count]; a lead
    in any other status, green included, is moved to yellow by it. *)
Theorem generic_click_keeps_red_only h dest c manager s row n :
  h <> "" -> dest <> "" ->
  get_campaign_manager (Some c) = Some manager ->
  select_by_hash h (leads_of (db_path manager) s) = Some row ->
  interact_count row = Some n ->
  String.prefix (Server.green_url c) dest = false ->
  exists row',
    select_by_hash h
      (leads_of (db_path manager) (track_link (Some h) (Some dest) (Some c) s).1)
    = Some row'
    /\ email row' = email row
    /\ interact_count row' = Some (n + 1)
    /\ (status row = Some "red" -> status row' = Some "red")
    /\ (status row <> Some "red" -> status row' = Some "yellow").
Proof.
  intros Hh Hd Hm Hrow Hn Hmarker.
  rewrite (track_link_resolved h dest c manager s row n) by done.
  rewrite Hmarker. cbn [fst]. rewrite leads_of_commit.
  destruct (is_text (status row) "red") eqn:Hred.
  - apply is_text_true in Hred.
    exists (Server.interacted (ctime (clock s)) (n + 1) row).
    split_and!; [by apply select_by_hash_update|done..].
  - exists (Server.clicked "yellow" (ctime (clock s)) (n + 1) row).
    split_and!; [by apply select_by_hash_update|done|done| |done].
    intros Hr. apply is_text_true in Hr. congruence.
Qed.

(** An open event on a lead whose [opened_timestamp] is set. *)
Lemma repeat_open h campaign_name manager s row n :
  h <> "" ->
  get_campaign_manager campaign_name = Some manager ->
  select_by_hash h (leads_of (db_path manager) s) = Some row ->
  interact_count row = Some n ->
  truthy (opened_timestamp row) = true ->
  track_open (Some h) campaign_name s =
    (commit (db_path manager)
       (update_where_email (email row)
          (Server.interacted (ctime (clock s)) (n + 1))
          (leads_of (db_path manager) s)) (tick s),
     Image pixel 200 "image/gif").
Proof.
  intros Hh Hm Hrow Hn Hopened.
  rewrite (track_open_resolved h campaign_name manager s row n) by done.
  by rewrite Hopened.
Qed.

(** No open event, whatever its token and campaign, changes an
    [opened_timestamp] that is set. *)
Lemma open_keeps_opened_timestamp email_hash campaign_name s path e r :
  primary_key (leads_of path s) ->
  lead_at path e s = Some r ->
  truthy (opened_timestamp r) = true ->
  exists r',
    lead_at path e (track_open email_hash campaign_name s).1 = Some r'
    /\ opened_timestamp r' = opened_timestamp r.
Proof.
  intros Hkey Hr Hopened. unfold Server.track_open, lead_at in *.
  destruct email_hash as [h|]; [|by exists r].
  destruct (negb (truthy (Some h))); [by exists r|]. cbn [fst].
  destruct (get_campaign_manager campaign_name) as [manager|]; [|by exists r].
  unfold get_db_path.
  destruct (select_by_hash h (leads_of (db_path manager) s)) as [row|] eqn:Hrow;
    [|by exists r].
  destruct (interact_count row) as [n|]; [|by exists r].
  destruct (decide (db_path manager = path)) as [Hpath|Hpath];
    [rewrite Hpath in *|].
  2: { exists r. split; [|done].
    destruct (negb (truthy (opened_timestamp row)));
      by rewrite leads_of_commit_ne. }
  apply select_by_hash_elem in Hrow as [Hin _].
  apply (select_by_email_primary_key _ _ Hkey) in Hin.
  destruct (decide (email row = e)) as [He|He].
  - rewrite He in *. rewrite Hin in Hr. injection Hr as ->.
    rewrite Hopened. cbn [negb]. rewrite leads_of_commit, leads_of_tick.
    rewrite select_by_email_update, Hin by done.
    by eexists.
  - exists r. split; [|done].
    destruct (negb (truthy (opened_timestamp row)));
      rewrite leads_of_commit, leads_of_tick;
      by rewrite select_by_email_update_ne.
Qed.

(** C5. [opened_timestamp], once set, is not changed by any later open
    event; and a new gray lead with [interact_count] [n] (0 in the
    scenario) is yellow with count [n + 1] and a stamped [opened_timestamp]
    after one open event, and yellow with count [n + 2] and the same
    [opened_timestamp] after a second one. *)
Theorem opened_at_is_set_once :
  (forall email_hash campaign_name s path e r,
     primary_key (leads_of path s) ->
     lead_at path e s = Some r ->
     truthy (opened_timestamp r) = true ->
     exists r',
       lead_at path e (track_open email_hash campaign_name s).1 = Some r'
       /\ opened_timestamp r' = opened_timestamp r)
  /\ (forall h campaign_name manager s row n,
       h <> "" ->
       get_campaign_manager campaign_name = Some manager ->
       select_by_hash h (leads_of (db_path manager) s) = Some row ->
       status row = Some "gray" ->
       interact_count row = Some n ->
       truthy (opened_timestamp row) = false ->
       ctime (clock s) <> "" ->
       let s1 := (track_open (Some h) campaign_name s).1 in
       let s2 := (track_open (Some h) campaign_name s1).1 in
       exists row1 row2,
         select_by_hash h (leads_of (db_path manager) s1) = Some row1
         /\ status row1 = Some "yellow"
         /\ interact_count row1 = Some (n + 1)
         /\ opened_timestamp row1 = Some (ctime (clock s))
         /\ select_by_hash h (leads_of (db_path manager) s2) = Some row2
         /\ status row2 = Some "yellow"
         /\ interact_count row2 = Some (n + 2)
         /\ opened_timestamp row2 = opened_timestamp row1).
Proof.
  split; [apply open_keeps_opened_timestamp|].
  intros h campaign_name manager s row n Hh Hm Hrow _ Hn Hopened Hnow s1 s2.
  set (row1 := Server.opened_first (ctime (clock s)) (n + 1) row).
  assert (select_by_hash h (leads_of (db_path manager) s1) = Some row1) as Hrow1.
  { subst s1. rewrite (track_open_resolved h campaign_name manager s row n) by done.
    rewrite Hopened. cbn [fst]. rewrite leads_of_commit.
    by apply select_by_hash_update. }
  exists row1, (Server.interacted (ctime (clock s1)) (n + 1 + 1) row1).
  split_and!; try done.
  - subst s2.
    rewrite (repeat_open h campaign_name manager s1 row1 (n + 1)); try done.
    + cbn [fst]. rewrite leads_of_commit. by apply select_by_hash_update.
    + by apply truthy_Some.
  - cbn. f_equal. lia.
Qed.

(** C6. A tracking event whose token resolves to no lead of the campaign:
    the open endpoint answers with the 1x1 image, the click endpoint
    redirects to the requested destination, and neither changes the state,
    so no lead row of any store is modified. For the open endpoint this also
    holds when the campaign is missing or not configured. *)
Theorem unknown_token_is_benign h dest campaign_name c manager s :
  h <> "" -> dest <> "" ->
  (forall manager', get_campaign_manager campaign_name = Some manager' ->
     select_by_hash h (leads_of (db_path manager') s) = None) ->
  get_campaign_manager (Some c) = Some manager ->
  select_by_hash h (leads_of (db_path manager) s) = None ->
  track_open (Some h) campaign_name s = (s, Image pixel 200 "image/gif")
  /\ track_link (Some h) (Some dest) (Some c) s = (s, Redirect dest).
Proof.
  intros Hh Hd Hopen Hm Hnone. apply truthy_Some in Hh, Hd. split.
  - unfold Server.track_open. rewrite Hh. cbn [negb].
    destruct (get_campaign_manager campaign_name) as [manager'|]; [|done].
    unfold get_db_path. by rewrite (Hopen manager').
  - unfold Server.track_link. rewrite Hh, Hd.
    cbn [negb orb default from_option id]. rewrite Hm.
    unfold get_db_path. by rewrite Hnone.
Qed.

(** C10. A click whose [campaign] parameter names no configured campaign:
    [get_campaign_manager] returns [None]; the view changes nothing and never
    answers with a redirect, and when the token and the destination are
    present it ends in the uncaught exception. *)
Theorem unknown_campaign_click_fails email_hash destination c s :
  campaign_managers !! c = None ->
  get_campaign_manager (Some c) = None
  /\ (track_link email_hash destination (Some c) s).1 = s
  /\ (forall u, (track_link email_hash destination (Some c) s).2 <> Redirect u)
  /\ (truthy email_hash = true -> truthy destination = true ->
      (track_link email_hash destination (Some c) s).2 = ServerError).
Proof.
  intros Hc.
  assert (get_campaign_manager (Some c) = None) as Hm.
  { unfold Server.get_campaign_manager. rewrite Hc. by destruct (truthy (Some c)). }
  split; [done|]. unfold Server.track_link. cbn [default from_option id].
  rewrite Hm.
  destruct email_hash as [h|], destination as [dest|]; cbn [fst snd];
    try (split_and!; [done|done|discriminate]).
  destruct (truthy (Some h)), (truthy (Some dest)); cbn [negb orb fst snd];
    split_and!; done.
Qed.

End Tracking.

(** C2, on the sample campaign: a first open event on a lead that is not red. *)
Lemma first_open_moves_to_yellow_witness :
  exists row',
    select_by_hash "tok-a"
      (leads_of "poland.db"
         (Server.track_open Sample.registry Sample.stamp (Some "tok-a")
            (Some "poland")
            (Sample.store [Sample.lead "a@x.com" "tok-a" "gray" 0])).1)
    = Some row'
    /\ email row' = "a@x.com"
    /\ status row' = Some "yellow"
    /\ opened_timestamp row' = Some (Sample.stamp 1)
    /\ interact_count row' = Some 1.
Proof.
  apply (first_open_moves_to_yellow Sample.registry Sample.stamp "tok-a"
           (Some "poland") Sample.poland
           (Sample.store [Sample.lead "a@x.com" "tok-a" "gray" 0])
           (Sample.lead "a@x.com" "tok-a" "gray" 0) 0);
    vm_compute; solve [reflexivity | discriminate].
Defined.

(** C2 as the claim states it fails: a green lead that opens the mail for
    the first time is moved to yellow. *)
Lemma first_open_downgrades_green :
  let s := Sample.store [Sample.lead "a@x.com" "tok-a" "green" 0] in
  let s' :=
    (Server.track_open Sample.registry Sample.stamp (Some "tok-a")
       (Some "poland") s).1 in
  (opened_timestamp <$> lead_at "poland.db" "a@x.com" s) = Some None
  /\ (status <$> lead_at "poland.db" "a@x.com" s) = Some (Some "green")
  /\ (status <$> lead_at "poland.db" "a@x.com" s') = Some (Some "yellow").
Proof. by vm_compute. Qed.

(** C3, on the sample campaign: a red lead follows a tracked link. *)
Lemma generic_click_keeps_red_only_witness :
  exists row',
    select_by_hash "tok-a"
      (leads_of "poland.db"
         (Server.track_link Sample.registry Sample.stamp (Some "tok-a")
            (Some "https://shop.themysticaroma.com") (Some "poland")
            (Sample.store [Sample.lead "a@x.com" "tok-a" "red" 3])).1)
    = Some row'
    /\ email row' = "a@x.com"
    /\ interact_count row' = Some 4
    /\ status row' = Some "red".
Proof.
  destruct (generic_click_keeps_red_only Sample.registry Sample.stamp "tok-a"
              "https://shop.themysticaroma.com" "poland" Sample.poland
              (Sample.store [Sample.lead "a@x.com" "tok-a" "red" 3])
              (Sample.lead "a@x.com" "tok-a" "red" 3) 3)
    as (row' & Hrow & Hemail & Hcount & Hred & _);
    try (vm_compute; solve [reflexivity | discriminate]).
  exists row'. split_and!; [exact Hrow|exact Hemail|exact Hcount|].
  apply Hred. reflexivity.
Defined.

(** C3 as the claim states it fails: a green lead that follows an ordinary
    tracked link is moved to yellow. *)
Lemma generic_click_downgrades_green :
  let s := Sample.store [Sample.lead "a@x.com" "tok-a" "green" 3] in
  let dest := "https://shop.themysticaroma.com" in
  let s' :=
    (Server.track_link Sample.registry Sample.stamp (Some "tok-a") (Some dest)
       (Some "poland") s).1 in
  String.prefix (Server.green_url "poland") dest = false
  /\ (status <$> lead_at "poland.db" "a@x.com" s) = Some (Some "green")
  /\ (status <$> lead_at "poland.db" "a@x.com" s') = Some (Some "yellow").
Proof. by vm_compute. Qed.

(** C5, on the sample campaign: the new lead [a@x.com] opens the mail twice,
    and a third open event leaves the [opened_timestamp] of the first. *)
Lemma opened_at_is_set_once_witness :
  let s := Sample.store [Sample.lead "a@x.com" "tok-a" "gray" 0] in
  let open := Server.track_open Sample.registry Sample.stamp (Some "tok-a")
                (Some "poland") in
  (exists row1 row2,
     select_by_hash "tok-a" (leads_of "poland.db" (open s).1) = Some row1
     /\ status row1 = Some "yellow"
     /\ interact_count row1 = Some 1
     /\ opened_timestamp row1 = Some (Sample.stamp 1)
     /\ select_by_hash "tok-a" (leads_of "poland.db" (open (open s).1).1)
        = Some row2
     /\ status row2 = Some "yellow"
     /\ interact_count row2 = Some 2
     /\ opened_timestamp row2 = opened_timestamp row1)
  /\ (exists r',
        lead_at "poland.db" "a@x.com" (open (open (open s).1).1).1 = Some r'
        /\ opened_timestamp r' = Some (Sample.stamp 1)).
Proof.
  intros s open.
  destruct (opened_at_is_set_once Sample.registry Sample.stamp)
    as [Hkept Hscenario].
  split.
  - apply (Hscenario "tok-a" (Some "poland") Sample.poland s
             (Sample.lead "a@x.com" "tok-a" "gray" 0) 0); run.
  - apply (Hkept (Some "tok-a") (Some "poland") (open (open s).1).1
             "poland.db" "a@x.com"
             (Server.interacted (Sample.stamp 2) 2
                (Server.opened_first (Sample.stamp 1) 1
                   (Sample.lead "a@x.com" "tok-a" "gray" 0)))); run.
Defined.

(** C6, on the sample campaign: the token [tok-z] belongs to no lead. *)
Lemma unknown_token_is_benign_witness :
  let s := Sample.store [Sample.lead "a@x.com" "tok-a" "gray" 0] in
  Server.track_open Sample.registry Sample.stamp (Some "tok-z") (Some "poland") s
  = (s, Image pixel 200 "image/gif")
  /\ Server.track_link Sample.registry Sample.stamp (Some "tok-z")
       (Some "https://shop.themysticaroma.com") (Some "poland") s
     = (s, Redirect "https://shop.themysticaroma.com").
Proof.
  intros s.
  apply (unknown_token_is_benign Sample.registry Sample.stamp "tok-z"
           "https://shop.themysticaroma.com" (Some "poland") "poland"
           Sample.poland s); try run.
  intros manager' [= <-]. run.
Defined.

(** C10, on the sample campaign: no campaign is called [france]. *)
Lemma unknown_campaign_click_fails_witness :
  let s := Sample.store [Sample.lead "a@x.com" "tok-a" "gray" 0] in
  let click :=
    Server.track_link Sample.registry Sample.stamp (Some "tok-a")
      (Some "https://shop.themysticaroma.com") (Some "france") s in
  Server.get_campaign_manager Sample.registry (Some "france") = None
  /\ click.1 = s
  /\ click.2 = ServerError.
Proof.
  intros s click.
  destruct (unknown_campaign_click_fails Sample.registry Sample.stamp
              (Some "tok-a") (Some "https://shop.themysticaroma.com")
              "france" s) as (Hnone & Hstate & _ & Herror); [run|].
  split_and!; [exact Hnone | exact Hstate | apply Herror; run].
Defined.

(** ** The interested click: [track_link], and the [green] view *)

Section Interested.
Variable campaign_managers : gmap string CampaignManager.
Variable ctime : nat -> string.
Variable hash_email : string -> string.

Local Abbreviation get_campaign_manager :=
  (Server.get_campaign_manager campaign_managers).
Local Abbreviation track_link := (Server.track_link campaign_managers ctime).
Local Abbreviation green := (Server.green campaign_managers ctime hash_email).

Implicit Types (s : State) (row : Lead) (manager : CampaignManager).
Implicit Types (h c dest : string) (n : Z) (t : list Lead).

(** The row that the scan of [green] stops at is still the one it stops at
    once the [UPDATE] has rewritten it. *)
Lemma find_by_recomputed_hash_update h f t row :
  (forall r, email (f r) = email r) ->
  Server.find_by_recomputed_hash hash_email h t = Some row ->
  Server.find_by_recomputed_hash hash_email h
    (update_where_email (email row) f t) = Some (f row).
Proof.
  intros Hf. unfold Server.find_by_recomputed_hash, update_where_email.
  induction t as [|r t IH]; simpl; [done|].
  destruct (String.eqb (hash_email (email r)) h) eqn:Hr.
  - intros [= ->]. by rewrite String.eqb_refl, Hf, Hr.
  - intros Hrow.
    destruct (String.eqb (email r) (email row)); rewrite ?Hf, Hr; auto.
Qed.

Lemma marker_not_empty c dest :
  String.prefix (Server.green_url c) dest = true -> dest <> "".
Proof. by destruct dest. Qed.

(** C4 (as amended). A click whose destination starts with the interested
    marker of the campaign: [track_link] sets the lead to green whatever its
    status was, adds one to [interact_count], redirects to the destination
    and sends nothing. The interested notification belongs to the [green]
    view: in any state [s'], a request to it with a token [h'] that is the
    digest of the address of a lead sends the notification exactly once,
    sets that lead to green with the time of the request, leaves its
    [interact_count] as it is and redirects to the landing page. *)
Theorem marker_click_sets_green_and_the_green_view_notifies
    h dest c manager s row n h' s' row' :
  h <> "" ->
  get_campaign_manager (Some c) = Some manager ->
  select_by_hash h (leads_of (db_path manager) s) = Some row ->
  interact_count row = Some n ->
  String.prefix (Server.green_url c) dest = true ->
  h' <> "" ->
  Server.find_by_recomputed_hash hash_email h' (leads_of (db_path manager) s')
  = Some row' ->
  email row' <> "" ->
  let click := track_link (Some h) (Some dest) (Some c) s in
  let landed := green (Some h') (Some c) s' in
  (click.2 = Redirect dest
   /\ outbox click.1 = outbox s
   /\ exists row1,
        select_by_hash h (leads_of (db_path manager) click.1) = Some row1
        /\ email row1 = email row
        /\ status row1 = Some "green"
        /\ interact_count row1 = Some (n + 1))
  /\ (landed.2 = Redirect (landing_page manager)
      /\ outbox landed.1 =
           (outbox s' ++ [Notification (from_email manager) "New Interested Lead"])%list
      /\ exists row2,
           Server.find_by_recomputed_hash hash_email h'
             (leads_of (db_path manager) landed.1) = Some row2
           /\ email row2 = email row'
           /\ status row2 = Some "green"
           /\ timestamp row2 = Some (ctime (clock s'))
           /\ interact_count row2 = interact_count row').
Proof.
  intros Hh Hm Hrow Hn Hmarker Hh' Hrow' He' click landed.
  pose proof (marker_not_empty c dest Hmarker) as Hd.
  split.
  - assert (click =
            (commit (db_path manager)
               (update_where_email (email row)
                  (Server.clicked "green" (ctime (clock s)) (n + 1))
                  (leads_of (db_path manager) s)) (tick s), Redirect dest))
      as ->.
    { subst click.
      rewrite (track_link_resolved _ _ h dest c manager s row n) by done.
      by rewrite Hmarker. }
    cbn [fst snd]. split_and!; try done.
    rewrite leads_of_commit.
    exists (Server.clicked "green" (ctime (clock s)) (n + 1) row).
    split; [|done]. by apply select_by_hash_update.
  - assert (landed =
            (emit (Notification (from_email manager) "New Interested Lead")
               (commit (db_path manager)
                  (update_where_email (email row')
                     (Server.moved (Some "green") (ctime (clock s')))
                     (leads_of (db_path manager) s')) (tick s')),
             Redirect (landing_page manager))) as ->.
    { subst landed. unfold Server.green.
      apply truthy_Some in Hh'. rewrite Hh'. cbn [negb default from_option id].
      rewrite Hm. unfold get_db_path. rewrite Hrow', leads_of_tick.
      apply truthy_Some in He'. by rewrite He'. }
    cbn [fst snd]. split_and!; try done.
    rewrite leads_of_emit, leads_of_commit.
    exists (Server.moved (Some "green") (ctime (clock s')) row').
    split; [|done]. by apply find_by_recomputed_hash_update.
Qed.

End Interested.

(** C4 (as amended), on the sample campaign: the yellow lead [a@x.com]
    clicks the interested link of the mail, and the [green] view is
    requested with the token of the gray lead [b@x.com]. *)
Lemma marker_click_sets_green_and_the_green_view_notifies_witness :
  let s := Sample.store
             [Sample.lead "a@x.com" (Sample.digest "a@x.com") "yellow" 1] in
  let s' := Sample.store
              [Sample.lead "b@x.com" (Sample.digest "b@x.com") "gray" 3] in
  let dest := "https://nma.themysticaroma.com/green?campaign=poland&hash=sha256:a@x.com" in
  let click :=
    Server.track_link Sample.registry Sample.stamp
      (Some (Sample.digest "a@x.com")) (Some dest) (Some "poland") s in
  let landed :=
    Server.green Sample.registry Sample.stamp Sample.digest
      (Some (Sample.digest "b@x.com")) (Some "poland") s' in
  (click.2 = Redirect dest
   /\ outbox click.1 = []
   /\ exists row1,
        select_by_hash (Sample.digest "a@x.com") (leads_of "poland.db" click.1)
        = Some row1
        /\ email row1 = "a@x.com"
        /\ status row1 = Some "green"
        /\ interact_count row1 = Some 2)
  /\ (landed.2 = Redirect "https://example.com/landing"
      /\ outbox landed.1 = [Notification "sales@example.com" "New Interested Lead"]
      /\ exists row2,
           Server.find_by_recomputed_hash Sample.digest (Sample.digest "b@x.com")
             (leads_of "poland.db" landed.1) = Some row2
           /\ email row2 = "b@x.com"
           /\ status row2 = Some "green"
           /\ timestamp row2 = Some (Sample.stamp 1)
           /\ interact_count row2 = Some 3).
Proof.
  intros s s' dest click landed.
  apply (marker_click_sets_green_and_the_green_view_notifies
           Sample.registry Sample.stamp Sample.digest
           (Sample.digest "a@x.com") dest "poland" Sample.poland s
           (Sample.lead "a@x.com" (Sample.digest "a@x.com") "yellow" 1) 1
           (Sample.digest "b@x.com") s'
           (Sample.lead "b@x.com" (Sample.digest "b@x.com") "gray" 3));
    run.
Defined.

(** C4 as first stated does not hold: the click of the yellow lead
    [a@x.com] on the interested link of its mail is recorded, the lead is
    green and counted, and no notification has been sent. *)
Lemma marker_click_sends_no_notification :
  let s := Sample.store
             [Sample.lead "a@x.com" (Sample.digest "a@x.com") "yellow" 1] in
  let dest := "https://nma.themysticaroma.com/green?campaign=poland&hash=sha256:a@x.com" in
  let click :=
    Server.track_link Sample.registry Sample.stamp
      (Some (Sample.digest "a@x.com")) (Some dest) (Some "poland") s in
  String.prefix (Server.green_url "poland") dest = true
  /\ click.2 = Redirect dest
  /\ (status <$> lead_at "poland.db" "a@x.com" click.1) = Some (Some "green")
  /\ (interact_count <$> lead_at "poland.db" "a@x.com" click.1) = Some (Some 2)
  /\ outbox click.1 = [].
Proof. by vm_compute. Qed.

(** ** The manual move of the dashboard *)

Section Dashboard.
Variable campaign_managers : gmap string CampaignManager.
Variable ctime : nat -> string.
Variable dashboard_password : string.

Local Abbreviation get_campaign_manager :=
  (Server.get_campaign_manager campaign_managers).
Local Abbreviation move_lead :=
  (Server.move_lead campaign_managers ctime dashboard_password).

(** C9. An authenticated move request writes the submitted status text to
    the lead as it is, whatever the text, and stamps [timestamp] anew; the
    other columns keep their values. *)
Theorem move_lead_writes_status_verbatim
    (username password user c e text : string) (manager : CampaignManager)
    (s : State) (r : Lead) :
  Server.verify_password dashboard_password username password = Some user ->
  get_campaign_manager (Some c) = Some manager ->
  lead_at (db_path manager) e s = Some r ->
  let out :=
    move_lead (Some (username, password)) (Some e) (Some text) (Some c) s in
  out.2 = Redirect ("/dashboard?campaign=" ++ c)
  /\ exists r',
      lead_at (db_path manager) e out.1 = Some r'
      /\ status r' = Some text
      /\ timestamp r' = Some (ctime (clock s))
      /\ r' = set_status (Some text) (set_timestamp (Some (ctime (clock s))) r).
Proof.
  intros Hauth Hm Hr out. subst out.
  unfold Server.move_lead, Server.login_required. rewrite Hauth.
  cbn [default from_option id]. rewrite Hm. cbn [fst snd].
  split; [done|]. unfold lead_at in *. unfold get_db_path.
  rewrite leads_of_commit, leads_of_tick.
  rewrite select_by_email_update, Hr by done.
  by eexists.
Qed.

End Dashboard.

(** C9, on the sample campaign: the operator moves [a@x.com] to a status
    that is none of the five colours. *)
Lemma move_lead_writes_status_verbatim_witness :
  let s := Sample.store [Sample.lead "a@x.com" "tok-a" "yellow" 2] in
  let out :=
    Server.move_lead Sample.registry Sample.stamp "secret"
      (Some ("admin", "secret")) (Some "a@x.com") (Some "purple!")
      (Some "poland") s in
  out.2 = Redirect "/dashboard?campaign=poland"
  /\ exists r',
      lead_at "poland.db" "a@x.com" out.1 = Some r'
      /\ status r' = Some "purple!"
      /\ timestamp r' = Some (Sample.stamp 1)
      /\ r' = set_status (Some "purple!")
                (set_timestamp (Some (Sample.stamp 1))
                   (Sample.lead "a@x.com" "tok-a" "yellow" 2)).
Proof.
  intros s out.
  apply (move_lead_writes_status_verbatim Sample.registry Sample.stamp
           "secret" "admin" "secret" "admin" "poland" "a@x.com" "purple!"
           Sample.poland s (Sample.lead "a@x.com" "tok-a" "yellow" 2)); run.
Defined.

(** ** Sending one mail *)

Section Sending.
Variable ctime : nat -> string.
Variable smtp_ok : list effect -> string -> bool.

Implicit Types (s : State) (r : Lead) (manager : CampaignManager).
Implicit Types (e : string) (n : Z).

(** What [send_email] of [server.py] does for a lead that is not skipped. *)
Lemma server_send_email_attempt manager e first_name s r :
  lead_at (db_path manager) e s = Some r ->
  Server.decided (Some r) = false ->
  Server.send_email ctime smtp_ok manager e first_name s =
    let s1 := emit (Smtp e (smtp_ok (outbox s) e)) s in
    match smtp_ok (outbox s) e, interact_count r with
    | true, Some n =>
      (commit (db_path manager)
         (update_where_email e
            (Server.sent (n + 1) (ctime (clock s)) (email_template manager)
               (ctime (S (clock s))))
            (leads_of (db_path manager) s)) (tick (tick s1)), true)
    | _, _ =>
      (commit (db_path manager)
         (update_where_email e (set_email_sent (Some 0))
            (leads_of (db_path manager) s)) s1, false)
    end.
Proof.
  unfold lead_at. intros Hr Hdecided. unfold Server.send_email, get_db_path.
  rewrite Hr, Hdecided. cbn [Server.count_of].
  destruct (smtp_ok (outbox s) e); [|done]. by destruct (interact_count r).
Qed.

(** What [send_email] of [main.py] does for a lead that is not skipped. *)
Lemma main_send_email_attempt manager e first_name attachment template_path s r :
  lead_at (db_path manager) e s = Some r ->
  Server.decided (Some r) = false ->
  fits attachment ->
  Main.send_email ctime smtp_ok manager e first_name attachment template_path s =
    let s1 := emit (Smtp e (smtp_ok (outbox s) e)) s in
    match smtp_ok (outbox s) e, interact_count r with
    | true, Some n =>
      (commit (db_path manager)
         (update_where_email e
            (Server.sent (n + 1) (ctime (clock s))
               (Main.or_default (Main.relative template_path))
               (ctime (S (clock s))))
            (leads_of (db_path manager) s)) (tick (tick s1)), true)
    | _, _ =>
      (commit (db_path manager)
         (update_where_email e (set_email_sent (Some 0))
            (leads_of (db_path manager) s)) s1, false)
    end.
Proof.
  unfold lead_at. intros Hr Hdecided Hfits.
  unfold Main.send_email, get_db_path. rewrite Hr, Hdecided.
  assert (match attachment with
          | Some size => Z.ltb (5 * 1024 * 1024) size
          | None => false
          end = false) as ->.
  { destruct attachment as [size|]; [|done]. simpl in Hfits. lia. }
  cbn [Server.count_of].
  destruct (smtp_ok (outbox s) e); [|done]. by destruct (interact_count r).
Qed.

(** C1 (as amended). A send that the transport delivers, to a lead that is
    not green, red or blue, sets [email_sent] to 1, records the template and
    the time of the send, adds one to [interact_count] and stamps
    [last_interact_timestamp], in [server.py] and in [main.py] alike; the
    status stays as it was. *)
Theorem delivered_send_is_recorded_and_counted
    manager e first_name attachment template_path s r n :
  lead_at (db_path manager) e s = Some r ->
  Server.decided (Some r) = false ->
  interact_count r = Some n ->
  fits attachment ->
  smtp_ok (outbox s) e = true ->
  let served := Server.send_email ctime smtp_ok manager e first_name s in
  let mained :=
    Main.send_email ctime smtp_ok manager e first_name attachment template_path
      s in
  (served.2 = true
   /\ exists r',
       lead_at (db_path manager) e served.1 = Some r'
       /\ email_sent r' = Some 1
       /\ sent_template r' = Some (email_template manager)
       /\ timestamp r' = Some (ctime (clock s))
       /\ interact_count r' = Some (n + 1)
       /\ last_interact_timestamp r' = Some (ctime (S (clock s)))
       /\ status r' = status r)
  /\ (mained.2 = true
      /\ exists r',
          lead_at (db_path manager) e mained.1 = Some r'
          /\ email_sent r' = Some 1
          /\ sent_template r' = Some (Main.or_default (Main.relative template_path))
          /\ timestamp r' = Some (ctime (clock s))
          /\ interact_count r' = Some (n + 1)
          /\ last_interact_timestamp r' = Some (ctime (S (clock s)))
          /\ status r' = status r).
Proof.
  intros Hr Hdecided Hn Hfits Hok served mained. subst served mained.
  rewrite (server_send_email_attempt manager e first_name s r) by done.
  rewrite (main_send_email_attempt manager e first_name attachment
             template_path s r) by done.
  rewrite Hok, Hn. cbn [fst snd]. unfold lead_at in *.
  rewrite !leads_of_commit, !select_by_email_update, Hr by done.
  split; (split; [done|]); by eexists.
Qed.

End Sending.

(** C1, on the sample campaign: a delivered mail to the gray lead [a@x.com]. *)
Lemma delivered_send_is_recorded_and_counted_witness :
  let s := Sample.store [Sample.lead "a@x.com" "tok-a" "gray" 0] in
  let served :=
    Server.send_email Sample.stamp Sample.delivers Sample.poland "a@x.com"
      (Some "") s in
  let mained :=
    Main.send_email Sample.stamp Sample.delivers Sample.poland "a@x.com"
      (Some "") None (Some "/templates/email-PL1.html") s in
  (served.2 = true
   /\ exists r',
       lead_at "poland.db" "a@x.com" served.1 = Some r'
       /\ email_sent r' = Some 1
       /\ sent_template r' = Some "email.html"
       /\ timestamp r' = Some (Sample.stamp 1)
       /\ interact_count r' = Some 1
       /\ last_interact_timestamp r' = Some (Sample.stamp 2)
       /\ status r' = Some "gray")
  /\ (mained.2 = true
      /\ exists r',
          lead_at "poland.db" "a@x.com" mained.1 = Some r'
          /\ email_sent r' = Some 1
          /\ sent_template r' = Some "templates/email-PL1.html"
          /\ timestamp r' = Some (Sample.stamp 1)
          /\ interact_count r' = Some 1
          /\ last_interact_timestamp r' = Some (Sample.stamp 2)
          /\ status r' = Some "gray").
Proof.
  intros s served mained.
  apply (delivered_send_is_recorded_and_counted Sample.stamp Sample.delivers
           Sample.poland "a@x.com" (Some "") None
           (Some "/templates/email-PL1.html") s
           (Sample.lead "a@x.com" "tok-a" "gray" 0) 0); run.
Defined.

(** C1 as the claim states it fails: a delivered mail raises the
    [interact_count] of the lead from 0 to 1, in [server.py] and in
    [main.py]. *)
Lemma delivered_send_raises_interact_count :
  let s := Sample.store [Sample.lead "a@x.com" "tok-a" "gray" 0] in
  let served :=
    Server.send_email Sample.stamp Sample.delivers Sample.poland "a@x.com"
      (Some "") s in
  let mained :=
    Main.send_email Sample.stamp Sample.delivers Sample.poland "a@x.com"
      (Some "") None None s in
  (interact_count <$> lead_at "poland.db" "a@x.com" s) = Some (Some 0)
  /\ served.2 = true
  /\ (interact_count <$> lead_at "poland.db" "a@x.com" served.1) = Some (Some 1)
  /\ mained.2 = true
  /\ (interact_count <$> lead_at "poland.db" "a@x.com" mained.1) = Some (Some 1).
Proof. by vm_compute. Qed.

(** ** The batch dispatcher *)

Section Loop.
Variable path : string.
Variable step : string * option string -> State -> State.

(** One turn of the loop hands the lead to the transport, records the
    outcome and leaves the rows of the other addresses alone. *)
Hypothesis step_attempts : forall l s,
  ready path s l.1 ->
  exists delivered : bool,
    attempts (outbox (step l s)) =
      (attempts (outbox s) ++ [(l.1, delivered)])%list
    /\ (exists r',
          lead_at path l.1 (step l s) = Some r'
          /\ email_sent r' = Some (if delivered then 1 else 0))
    /\ forall e, e <> l.1 -> lead_at path e (step l s) = lead_at path e s.

Lemma ready_frame s s' e :
  lead_at path e s' = lead_at path e s -> ready path s e -> ready path s' e.
Proof. unfold ready. by intros ->. Qed.

Lemma foldl_all_attempted (leads : list (string * option string)) (s : State) :
  NoDup (leads.*1) ->
  (forall e, e ∈ leads.*1 -> ready path s e) ->
  all_attempted path leads s (foldl (fun s l => step l s) s leads)
  /\ forall e, e ∉ leads.*1 ->
       lead_at path e (foldl (fun s l => step l s) s leads) = lead_at path e s.
Proof.
  revert s. induction leads as [|l leads IH]; intros s Hnodup Hready.
  - split; [|done]. exists []. split_and!; [done| |].
    + simpl. by rewrite app_nil_r.
    + intros i e delivered Hi. by destruct i.
  - rewrite fmap_cons in Hnodup, Hready.
    apply NoDup_cons in Hnodup as [Hfresh Hnodup].
    destruct (step_attempts l s) as (delivered & Hout & (r' & Hr' & Hsent) & Hframe).
    { apply Hready. by left. }
    destruct (IH (step l s)) as [(outcomes & Hlen & Houts & Hrows) Hkept].
    { done. }
    { intros e He. apply (ready_frame s).
      - apply Hframe. intros ->. done.
      - apply Hready. by right. }
    cbn [foldl]. split.
    + exists (delivered :: outcomes). split_and!.
      * simpl. by rewrite Hlen.
      * rewrite Houts, Hout, fmap_cons. simpl. by rewrite <- app_assoc.
      * intros [|i] e b; rewrite fmap_cons; simpl.
        -- intros [= <-] [= <-]. exists r'. by rewrite Hkept.
        -- apply Hrows.
    + intros e He. rewrite fmap_cons in He. apply not_elem_of_cons in He as [He ?].
      rewrite Hkept by done. by apply Hframe.
Qed.

End Loop.

Section Batch.
Variable ctime : nat -> string.
Variable smtp_ok : list effect -> string -> bool.
Variable manager : CampaignManager.
Variable attachment : option Z.
Variable template_path : option string.

Local Abbreviation path := (db_path manager).

(** One turn of the loop of [run_campaign] ... *)
Local Abbreviation server_turn :=
  (fun (l : string * option string) (s : State) =>
     let (s1, ok) := Server.send_email ctime smtp_ok manager l.1 l.2 s in
     if ok then emit (Sleep (delay manager)) s1 else s1).

(** ... and of the loop of the [send] action. *)
Local Abbreviation main_turn :=
  (fun (l : string * option string) (s : State) =>
     let (s1, ok) :=
       Main.send_email ctime smtp_ok manager l.1 l.2 attachment template_path s in
     if ok then emit (Sleep (delay manager)) s1
     else commit path
            (update_where_email l.1 (set_email_sent (Some 0)) (leads_of path s1))
            s1).

Lemma server_for_each_lead_foldl leads s :
  Server.for_each_lead ctime smtp_ok manager leads s =
  foldl (fun s l => server_turn l s) s leads.
Proof.
  revert s. induction leads as [|[e fn] leads IH]; intros s; [done|].
  cbn [Server.for_each_lead foldl fst snd].
  destruct (Server.send_email ctime smtp_ok manager e fn s) as [s1 ok].
  apply IH.
Qed.

Lemma main_for_each_lead_foldl leads sent_count s :
  (Main.for_each_lead ctime smtp_ok manager attachment template_path leads
     sent_count s).1 =
  foldl (fun s l => main_turn l s) s leads.
Proof.
  revert s sent_count.
  induction leads as [|[e fn] leads IH]; intros s sent_count; [done|].
  cbn [Main.for_each_lead foldl fst snd].
  destruct (Main.send_email ctime smtp_ok manager e fn attachment
              template_path s) as [s1 [|]]; apply IH.
Qed.

Lemma attempts_app (o o' : list effect) :
  attempts (o ++ o') = (attempts o ++ attempts o')%list.
Proof. apply omap_app. Qed.

Lemma server_turn_attempts l s :
  ready path s l.1 ->
  exists delivered : bool,
    attempts (outbox (server_turn l s)) =
      (attempts (outbox s) ++ [(l.1, delivered)])%list
    /\ (exists r',
          lead_at path l.1 (server_turn l s) = Some r'
          /\ email_sent r' = Some (if delivered then 1 else 0))
    /\ forall e, e <> l.1 -> lead_at path e (server_turn l s) = lead_at path e s.
Proof.
  destruct l as [e fn]. cbn [fst snd]. intros (r & Hr & Hdecided & Hcount).
  rewrite (server_send_email_attempt ctime smtp_ok manager e fn s r) by done.
  destruct (interact_count r) as [n|]; [|done]. clear Hcount.
  exists (smtp_ok (outbox s) e). unfold lead_at in *.
  destruct (smtp_ok (outbox s) e); cbn [outbox emit commit tick];
    rewrite ?attempts_app; cbn [attempts omap]; rewrite ?app_nil_r.
  - split_and!; [done| |].
    + rewrite leads_of_emit, leads_of_commit.
      rewrite select_by_email_update, Hr by done. by eexists.
    + intros e' He'. rewrite leads_of_emit, leads_of_commit.
      by rewrite select_by_email_update_ne.
  - split_and!; [done| |].
    + rewrite leads_of_commit.
      rewrite select_by_email_update, Hr by done. by eexists.
    + intros e' He'. rewrite leads_of_commit.
      by rewrite select_by_email_update_ne.
Qed.

Lemma main_turn_attempts l s :
  fits attachment ->
  ready path s l.1 ->
  exists delivered : bool,
    attempts (outbox (main_turn l s)) =
      (attempts (outbox s) ++ [(l.1, delivered)])%list
    /\ (exists r',
          lead_at path l.1 (main_turn l s) = Some r'
          /\ email_sent r' = Some (if delivered then 1 else 0))
    /\ forall e, e <> l.1 -> lead_at path e (main_turn l s) = lead_at path e s.
Proof.
  destruct l as [e fn]. cbn [fst snd]. intros Hfits (r & Hr & Hdecided & Hcount).
  rewrite (main_send_email_attempt ctime smtp_ok manager e fn attachment
             template_path s r) by done.
  destruct (interact_count r) as [n|]; [|done]. clear Hcount.
  exists (smtp_ok (outbox s) e). unfold lead_at in *.
  destruct (smtp_ok (outbox s) e); cbn [outbox emit commit tick];
    rewrite ?attempts_app; cbn [attempts omap]; rewrite ?app_nil_r.
  - split_and!; [done| |].
    + rewrite leads_of_emit, leads_of_commit.
      rewrite select_by_email_update, Hr by done. by eexists.
    + intros e' He'. rewrite leads_of_emit, leads_of_commit.
      by rewrite select_by_email_update_ne.
  - split_and!; [done| |].
    + rewrite !leads_of_commit.
      rewrite !select_by_email_update, Hr by done. by eexists.
    + intros e' He'. rewrite !leads_of_commit.
      by rewrite !select_by_email_update_ne.
Qed.

Lemma eligible_not_decided (r : Lead) :
  eligible r = true -> Server.decided (Some r) = false.
Proof.
  unfold eligible, Server.decided. intros [Hgray _]%andb_prop.
  apply is_text_true in Hgray. by rewrite Hgray.
Qed.

Lemma select_eligible_emails (t : list Lead) :
  (select_eligible t).*1 = email <$> filter (fun r => eligible r = true) t.
Proof.
  unfold select_eligible. rewrite <- list_fmap_compose. by apply list_fmap_ext.
Qed.

Lemma select_eligible_NoDup (t : list Lead) :
  primary_key t -> NoDup ((select_eligible t).*1).
Proof.
  unfold primary_key. rewrite select_eligible_emails. intros Hkey.
  apply (sublist_NoDup _ _ Hkey), fmap_sublist, sublist_filter.
Qed.

Lemma select_eligible_ready (s : State) (e : string) :
  primary_key (leads_of path s) ->
  Forall (fun r => eligible r = true -> interact_count r <> None)
    (leads_of path s) ->
  e ∈ (select_eligible (leads_of path s)).*1 ->
  ready path s e.
Proof.
  intros Hkey Hcount. rewrite Forall_forall in Hcount.
  rewrite select_eligible_emails.
  intros (r & -> & [Hr Hin]%list_elem_of_filter)%list_elem_of_fmap.
  exists r. split_and!.
  - by apply select_by_email_primary_key.
  - by apply eligible_not_decided.
  - by apply Hcount.
Qed.

Lemma lead_at_elem (p e : string) (s : State) (r : Lead) :
  lead_at p e s = Some r -> r ∈ leads_of p s /\ email r = e.
Proof.
  unfold lead_at, select_by_email. intros [Hin He]%find_some.
  split; [by apply list_elem_of_In | by apply String.eqb_eq].
Qed.

Lemma select_eligible_elem (t : list Lead) (e : string) :
  e ∈ (select_eligible t).*1 <-> exists r, r ∈ t /\ eligible r = true /\ email r = e.
Proof.
  rewrite select_eligible_emails, list_elem_of_fmap. split.
  - intros (r & -> & [Hr Hin]%list_elem_of_filter). by exists r.
  - intros (r & Hin & Hr & <-). exists r. split; [done|].
    by apply list_elem_of_filter.
Qed.

(** One turn of the loop of [run_campaign] for a lead that [send_email]
    does not skip: the mail goes to the transport, the row records the
    outcome and keeps its status, and nothing else changes. *)
Lemma server_turn_records l s r :
  lead_at path l.1 s = Some r ->
  Server.decided (Some r) = false ->
  interact_count r <> None ->
  exists r',
    lead_at path l.1 (server_turn l s) = Some r'
    /\ status r' = status r
    /\ interact_count r' <> None
    /\ email_sent r' = Some (if smtp_ok (outbox s) l.1 then 1 else 0)
    /\ Smtp l.1 (smtp_ok (outbox s) l.1) ∈ outbox (server_turn l s)
    /\ (forall x, x ∈ outbox s -> x ∈ outbox (server_turn l s))
    /\ (forall e, e <> l.1 -> lead_at path e (server_turn l s) = lead_at path e s)
    /\ emails (leads_of path (server_turn l s)) = emails (leads_of path s).
Proof.
  destruct l as [e fn]. cbn [fst snd]. intros Hr Hdecided Hcount.
  rewrite (server_send_email_attempt ctime smtp_ok manager e fn s r) by done.
  destruct (interact_count r) as [n|] eqn:Hn; [|done]. clear Hcount.
  unfold lead_at in *. cbv zeta.
  destruct (smtp_ok (outbox s) e); cbn [outbox emit commit tick];
    rewrite ?leads_of_emit, leads_of_commit;
    rewrite select_by_email_update, Hr by done;
    (eexists; split_and!;
       [done|done|by cbn; rewrite ?Hn|done| | | |by apply emails_update]).
  - apply elem_of_app. left. apply elem_of_app. right. by left.
  - intros x Hx. apply elem_of_app. left. apply elem_of_app. by left.
  - intros e' He'. by rewrite select_by_email_update_ne.
  - apply elem_of_app. right. by left.
  - intros x Hx. apply elem_of_app. by left.
  - intros e' He'. by rewrite select_by_email_update_ne.
Qed.

(** A round of [run_campaign] over leads that are ready: every lead keeps
    its status and records the outcome of its mail, a lead that had been
    mailed before is delivered to when the transport is one that delivers
    on a retry, and the other rows are as they were. *)
Lemma round_records (leads : list (string * option string)) (s : State) :
  NoDup (leads.*1) ->
  (forall e, e ∈ leads.*1 -> ready path s e) ->
  let s' := foldl (fun s l => server_turn l s) s leads in
  (forall e, e ∈ leads.*1 ->
     exists r r' (delivered : bool),
       lead_at path e s = Some r
       /\ lead_at path e s' = Some r'
       /\ status r' = status r
       /\ interact_count r' <> None
       /\ email_sent r' = Some (if delivered then 1 else 0)
       /\ Smtp e delivered ∈ outbox s'
       /\ (retry_delivers smtp_ok ->
           (exists before, Smtp e before ∈ outbox s) -> delivered = true))
  /\ (forall e, e ∉ leads.*1 -> lead_at path e s' = lead_at path e s)
  /\ emails (leads_of path s') = emails (leads_of path s)
  /\ (forall x, x ∈ outbox s -> x ∈ outbox s').
Proof.
  revert s. induction leads as [|l leads IH]; intros s Hnodup Hready; cbn zeta.
  { split_and!; [|done..]. intros e He. by apply elem_of_nil in He. }
  rewrite fmap_cons in Hnodup, Hready.
  apply NoDup_cons in Hnodup as [Hfresh Hnodup].
  destruct (Hready l.1) as (r & Hr & Hdecided & Hcount); [by left|].
  destruct (server_turn_records l s r Hr Hdecided Hcount)
    as (r1 & Hr1 & Hstatus & Hcount1 & Hsent & Hmail & Hout & Hframe & Hemails).
  destruct (IH (server_turn l s)) as (Hrows & Hkept & Hsame & Hgrows); [done| |].
  { intros e He. apply (ready_frame path s).
    - apply Hframe. by intros ->.
    - apply Hready. by right. }
  cbn [foldl]. split_and!.
  - intros e [->|He]%elem_of_cons.
    + exists r, r1, (smtp_ok (outbox s) l.1). split_and!; try done.
      * by rewrite Hkept.
      * by apply Hgrows.
      * intros Hretry [before Hbefore]. by apply (Hretry _ _ before).
    + destruct (Hrows e He)
        as (r0 & r' & delivered & Hr0 & Hr' & Hst & Hct & Hse & Hm & Hre).
      exists r0, r', delivered. split_and!; try done.
      * rewrite <- Hr0. symmetry. apply Hframe. by intros ->.
      * intros Hretry [before Hbefore]. apply Hre; [done|].
        exists before. by apply Hout.
  - intros e [He ?]%not_elem_of_cons. rewrite Hkept by done. by apply Hframe.
  - by rewrite Hsame.
  - intros x Hx. by apply Hgrows, Hout.
Qed.

(** [run_campaign] returns from the [break] only: with an empty selection. *)
Lemma run_campaign_returns_on_an_empty_selection fuel s s' :
  Server.run_campaign ctime smtp_ok fuel manager s = Some s' ->
  select_eligible (leads_of path s') = [].
Proof.
  revert s. induction fuel as [|fuel IH]; intros s; [done|].
  cbn [Server.run_campaign]. unfold get_db_path.
  destruct (select_eligible (leads_of path s)) as [|l leads] eqn:Hleads.
  - by intros [= <-].
  - apply IH.
Qed.

(** One pass of the [while True] of [run_campaign]. *)
Lemma run_campaign_round fuel s :
  Server.run_campaign ctime smtp_ok (S fuel) manager s =
  match select_eligible (leads_of path s) with
  | [] => Some s
  | _ :: _ =>
    Server.run_campaign ctime smtp_ok fuel manager
      (Server.for_each_lead ctime smtp_ok manager
         (select_eligible (leads_of path s)) s)
  end.
Proof.
  cbn [Server.run_campaign]. unfold get_db_path.
  by destruct (select_eligible (leads_of path s)).
Qed.

(** The rounds of [run_campaign]: the second round selects the leads that
    the first has left unsent; under a transport that delivers on a retry
    it delivers to all of them, and the third selection is empty. *)
Lemma two_rounds (s : State) :
  primary_key (leads_of path s) ->
  Forall (fun r => eligible r = true -> interact_count r <> None)
    (leads_of path s) ->
  let leads := select_eligible (leads_of path s) in
  let round := Server.for_each_lead ctime smtp_ok manager leads s in
  let again :=
    Server.for_each_lead ctime smtp_ok manager
      (select_eligible (leads_of path round)) round in
  (forall e r1,
     e ∈ leads.*1 -> lead_at path e round = Some r1 -> email_sent r1 = Some 0 ->
     e ∈ (select_eligible (leads_of path round)).*1)
  /\ (retry_delivers smtp_ok ->
      (forall fuel,
         Server.run_campaign ctime smtp_ok (S (S (S fuel))) manager s = Some again)
      /\ (forall e, e ∈ leads.*1 ->
            exists r', lead_at path e again = Some r' /\ email_sent r' = Some 1)
      /\ (forall e r1,
            e ∈ leads.*1 -> lead_at path e round = Some r1 ->
            email_sent r1 = Some 0 -> Smtp e true ∈ outbox again)).
Proof.
  intros Hkey Hcount leads round again.
  assert (again =
          Server.for_each_lead ctime smtp_ok manager
            (select_eligible (leads_of path round)) round) as Ha by done.
  assert (round = Server.for_each_lead ctime smtp_ok manager leads s) as Hr
    by done.
  assert (leads = select_eligible (leads_of path s)) as Hl by done.
  clearbody again round leads.
  remember (select_eligible (leads_of path round)) as leads2 eqn:Hl2.
  assert (NoDup (leads.*1)) as Hnodup
    by (rewrite Hl; by apply select_eligible_NoDup).
  assert (forall e, e ∈ leads.*1 -> ready path s e) as Hready
    by (intros e; rewrite Hl; by apply select_eligible_ready).
  destruct (round_records leads s Hnodup Hready) as (Hrows & Hkept & Hsame & Hgrows).
  assert (round = foldl (fun s l => server_turn l s) s leads) as Hround
    by (rewrite Hr; apply server_for_each_lead_foldl).
  rewrite <- Hround in Hrows, Hkept, Hsame, Hgrows.
  assert (primary_key (leads_of path round)) as Hkey1.
  { unfold primary_key in *. change (map email) with emails in *.
    by rewrite Hsame. }
  (* a lead of the first selection is gray before and after the round *)
  assert (forall e r1, e ∈ leads.*1 -> lead_at path e round = Some r1 ->
            is_text (status r1) "gray" = true) as Hgray.
  { intros e r1 He Hr1.
    destruct (Hrows e He) as (r0 & r' & b & Hr0 & Hr' & Hst & _).
    rewrite Hr1 in Hr'. injection Hr' as <-. rewrite Hst.
    rewrite Hl in He. apply select_eligible_elem in He as (r & Hin & Hel & <-).
    pose proof (select_by_email_primary_key _ _ Hkey Hin) as Hlead.
    fold (lead_at path (email r) s) in Hlead. rewrite Hlead in Hr0.
    injection Hr0 as <-. unfold eligible in Hel.
    by apply andb_prop in Hel as [? _]. }
  assert (forall e r1, e ∈ leads.*1 -> lead_at path e round = Some r1 ->
            email_sent r1 = Some 0 -> e ∈ leads2.*1) as Hfailed.
  { intros e r1 He Hr1 Hsent. rewrite Hl2. apply select_eligible_elem.
    exists r1. destruct (lead_at_elem _ _ _ _ Hr1) as [Hin Hemail].
    split_and!; [done| |done].
    unfold eligible. by rewrite (Hgray e r1 He Hr1), Hsent. }
  split; [exact Hfailed|]. intros Hretry.
  (* the second selection is within the first *)
  assert (forall e, e ∈ leads2.*1 -> e ∈ leads.*1) as Hwithin.
  { intros e He. rewrite Hl2 in He.
    apply select_eligible_elem in He as (r2 & Hin & Hel & <-).
    destruct (decide (email r2 ∈ leads.*1)) as [|Hout]; [done|]. exfalso.
    pose proof (select_by_email_primary_key _ _ Hkey1 Hin) as Hlead.
    fold (lead_at path (email r2) round) in Hlead.
    rewrite Hkept in Hlead by done.
    apply lead_at_elem in Hlead as [Hold _].
    apply Hout. rewrite Hl. apply select_eligible_elem. by exists r2. }
  assert (NoDup (leads2.*1)) as Hnodup2
    by (rewrite Hl2; by apply select_eligible_NoDup).
  assert (forall e, e ∈ leads2.*1 -> ready path round e) as Hready2.
  { intros e He. pose proof (Hwithin e He) as He1. rewrite Hl2 in He.
    apply select_eligible_elem in He as (r2 & Hin & Hel & <-).
    pose proof (select_by_email_primary_key _ _ Hkey1 Hin) as Hlead.
    fold (lead_at path (email r2) round) in Hlead.
    exists r2. split_and!; [done|by apply eligible_not_decided|].
    destruct (Hrows _ He1) as (r0 & r' & b & _ & Hr' & _ & Hct & _).
    rewrite Hlead in Hr'. by injection Hr' as <-. }
  destruct (round_records leads2 round Hnodup2 Hready2)
    as (Hrows2 & Hkept2 & Hsame2 & Hgrows2).
  assert (again = foldl (fun s l => server_turn l s) round leads2) as Hagain
    by (rewrite Ha; apply server_for_each_lead_foldl).
  rewrite <- Hagain in Hrows2, Hkept2, Hsame2, Hgrows2.
  (* every lead of the second selection is delivered to *)
  assert (forall e, e ∈ leads2.*1 ->
            exists r', lead_at path e again = Some r' /\ email_sent r' = Some 1
                       /\ Smtp e true ∈ outbox again) as Hsent2.
  { intros e He.
    destruct (Hrows2 e He) as (r0 & r' & b & _ & Hr' & _ & _ & Hse & Hm & Hre).
    destruct (Hrows e (Hwithin e He)) as (? & ? & b1 & _ & _ & _ & _ & _ & Hm1 & _).
    assert (b = true) as -> by (apply Hre; [done|by exists b1]).
    by exists r'. }
  assert (primary_key (leads_of path again)) as Hkey2.
  { unfold primary_key in *. change (map email) with emails in *.
    by rewrite Hsame2. }
  assert (select_eligible (leads_of path again) = []) as Hdone.
  { destruct (select_eligible (leads_of path again)) as [|x xs] eqn:Hsel; [done|].
    exfalso.
    assert (x.1 ∈ (select_eligible (leads_of path again)).*1) as Hx
      by (rewrite Hsel, fmap_cons; by left).
    apply select_eligible_elem in Hx as (r3 & Hin & Hel & Hemail).
    pose proof (select_by_email_primary_key _ _ Hkey2 Hin) as Hlead.
    fold (lead_at path (email r3) again) in Hlead.
    destruct (decide (email r3 ∈ leads2.*1)) as [Hsel2|Hsel2].
    - destruct (Hsent2 _ Hsel2) as (r' & Hr' & Hse & _).
      rewrite Hlead in Hr'. injection Hr' as <-.
      unfold eligible in Hel. rewrite Hse in Hel.
      by apply andb_prop in Hel as [_ ?].
    - rewrite Hkept2 in Hlead by done.
      apply lead_at_elem in Hlead as [Hold _].
      apply Hsel2. rewrite Hl2. apply select_eligible_elem. by exists r3. }
  split_and!.
  - intros fuel. rewrite run_campaign_round, <- Hl.
    destruct leads as [|l leads'].
    { cbn [Server.for_each_lead] in Hr. subst round.
      rewrite <- Hl in Hl2. subst leads2. by subst again. }
    rewrite <- Hr, run_campaign_round, <- Hl2.
    destruct leads2 as [|l2 leads2'].
    { by subst again. }
    by rewrite <- Ha, run_campaign_round, Hdone.
  - intros e He.
    destruct (decide (e ∈ leads2.*1)) as [He2|He2].
    + destruct (Hsent2 e He2) as (r' & Hr' & Hse & _). by exists r'.
    + destruct (Hrows e He) as (r0 & r1 & b & _ & Hr1 & _ & _ & Hse & _).
      exists r1. rewrite Hkept2 by done. split; [done|].
      destruct b; [done|]. exfalso. by apply He2, (Hfailed e r1).
  - intros e r1 He Hr1 Hse.
    destruct (Hsent2 e (Hfailed e r1 He Hr1 Hse)) as (_ & _ & _ & Hm). done.
Qed.

(** C7 (as amended). The [send] action of [main.py] over the selected gray
    leads hands every selected lead to the transport once and in order,
    whatever the outcome for the leads before it; a lead whose mail fails is
    left with [email_sent] 0 and a lead whose mail is delivered with
    [email_sent] 1. A round of [run_campaign] does the same, and the run
    does not end there: it returns with an empty selection only, and a lead
    that the round has left with [email_sent] 0 is selected again by the
    next round. Under a transport that delivers on a retry the run returns
    after two rounds at most, every lead of the first selection has
    [email_sent] 1, and a lead whose first mail failed has been mailed a
    second time. *)
Theorem failed_send_does_not_stop_the_run (s : State) :
  primary_key (leads_of path s) ->
  Forall (fun r => eligible r = true -> interact_count r <> None)
    (leads_of path s) ->
  fits attachment ->
  let leads := select_eligible (leads_of path s) in
  let round := Server.for_each_lead ctime smtp_ok manager leads s in
  all_attempted path leads s
    (Main.main_send ctime smtp_ok manager attachment template_path s).1
  /\ all_attempted path leads s round
  /\ (forall fuel s',
        Server.run_campaign ctime smtp_ok fuel manager s = Some s' ->
        select_eligible (leads_of path s') = [])
  /\ (forall e r1,
        e ∈ leads.*1 -> lead_at path e round = Some r1 -> email_sent r1 = Some 0 ->
        e ∈ (select_eligible (leads_of path round)).*1)
  /\ (retry_delivers smtp_ok ->
      exists s',
        (forall fuel,
           Server.run_campaign ctime smtp_ok (S (S (S fuel))) manager s = Some s')
        /\ (forall e, e ∈ leads.*1 ->
              exists r', lead_at path e s' = Some r' /\ email_sent r' = Some 1)
        /\ (forall e r1,
              e ∈ leads.*1 -> lead_at path e round = Some r1 ->
              email_sent r1 = Some 0 -> Smtp e true ∈ outbox s')).
Proof.
  intros Hkey Hcount Hfits leads round.
  assert (NoDup (leads.*1)) as Hnodup by (by apply select_eligible_NoDup).
  assert (forall e, e ∈ leads.*1 -> ready path s e) as Hready
    by (intros e; by apply select_eligible_ready).
  destruct (two_rounds s Hkey Hcount) as [Hfailed Hretry].
  split_and!.
  - unfold Main.main_send, get_db_path. fold leads.
    rewrite main_for_each_lead_foldl.
    apply (foldl_all_attempted path (fun l s => main_turn l s)); [|done..].
    intros l s0. by apply main_turn_attempts.
  - subst round. rewrite server_for_each_lead_foldl.
    apply (foldl_all_attempted path (fun l s => server_turn l s)); [|done..].
    intros l s0. by apply server_turn_attempts.
  - intros fuel s'. apply run_campaign_returns_on_an_empty_selection.
  - exact Hfailed.
  - intros Hdelivers. destruct (Hretry Hdelivers) as (Hrun & Hsent & Hmailed).
    eexists. split_and!; [exact Hrun|exact Hsent|exact Hmailed].
Qed.

End Batch.

Lemma fails_once_for_retry_delivers (bad : string) :
  retry_delivers (Sample.fails_once_for bad).
Proof.
  intros o to_addr delivered Hin. unfold Sample.fails_once_for.
  destruct (String.eqb to_addr bad) eqn:Hbad; [|done]. cbn [negb orb].
  apply String.eqb_eq in Hbad as ->.
  apply existsb_exists. exists (Smtp bad delivered).
  split; [by apply list_elem_of_In|]. apply String.eqb_refl.
Qed.

(** C7 (as amended), on the sample campaign: three gray leads, and a
    transport that fails the first mail to the second. *)
Lemma failed_send_does_not_stop_the_run_witness :
  let s := Sample.store [Sample.lead "a@x.com" "tok-a" "gray" 0;
                         Sample.lead "b@x.com" "tok-b" "gray" 0;
                         Sample.lead "c@x.com" "tok-c" "gray" 0] in
  let leads := select_eligible (leads_of (db_path Sample.poland) s) in
  let round :=
    Server.for_each_lead Sample.stamp (Sample.fails_once_for "b@x.com")
      Sample.poland leads s in
  all_attempted (db_path Sample.poland) leads s
    (Main.main_send Sample.stamp (Sample.fails_once_for "b@x.com") Sample.poland
       None None s).1
  /\ all_attempted (db_path Sample.poland) leads s round
  /\ exists s',
       (forall fuel,
          Server.run_campaign Sample.stamp (Sample.fails_once_for "b@x.com")
            (S (S (S fuel))) Sample.poland s = Some s')
       /\ (forall e, e ∈ leads.*1 ->
             exists r',
               lead_at (db_path Sample.poland) e s' = Some r'
               /\ email_sent r' = Some 1).
Proof.
  intros s leads round.
  destruct (failed_send_does_not_stop_the_run Sample.stamp
              (Sample.fails_once_for "b@x.com") Sample.poland None None s)
    as (Hmain & Hround & _ & _ & Hretry).
  - run.
  - apply (bool_decide_unpack _). vm_compute. exact I.
  - exact I.
  - destruct (Hretry (fails_once_for_retry_delivers "b@x.com"))
      as (s' & Hrun & Hsent & _).
    split; [exact Hmain|]. split; [exact Hround|].
    exists s'. split; [exact Hrun | exact Hsent].
Defined.

(** C7 as first stated does not hold of [run_campaign]: of three gray leads
    the transport fails the first mail to the second. The round goes on to
    the third lead, and the run then mails the second lead again and
    returns with [email_sent] 1 for all three; the failure is not what the
    run leaves on the lead. *)
Lemma run_campaign_retries_the_failed_lead :
  let s := Sample.store [Sample.lead "a@x.com" "tok-a" "gray" 0;
                         Sample.lead "b@x.com" "tok-b" "gray" 0;
                         Sample.lead "c@x.com" "tok-c" "gray" 0] in
  let run :=
    Server.run_campaign Sample.stamp (Sample.fails_once_for "b@x.com") 3
      Sample.poland s in
  ((fun s' => attempts (outbox s')) <$> run) =
    Some [("a@x.com", true); ("b@x.com", false); ("c@x.com", true);
          ("b@x.com", true)]
  /\ ((fun s' => email_sent <$> lead_at "poland.db" "a@x.com" s') <$> run)
     = Some (Some (Some 1))
  /\ ((fun s' => email_sent <$> lead_at "poland.db" "b@x.com" s') <$> run)
     = Some (Some (Some 1))
  /\ ((fun s' => email_sent <$> lead_at "poland.db" "c@x.com" s') <$> run)
     = Some (Some (Some 1)).
Proof. by vm_compute. Qed.

(** The scenario in [main.py]: the first and the third lead end with
    [email_sent] 1, the second with 0, and all three were handed to the
    transport. *)
Example second_send_fails :
  let s := Sample.store [Sample.lead "a@x.com" "tok-a" "gray" 0;
                         Sample.lead "b@x.com" "tok-b" "gray" 0;
                         Sample.lead "c@x.com" "tok-c" "gray" 0] in
  let s' := (Main.main_send Sample.stamp (Sample.fails_for "b@x.com")
               Sample.poland None None s).1 in
  attempts (outbox s') =
    [("a@x.com", true); ("b@x.com", false); ("c@x.com", true)]
  /\ (email_sent <$> lead_at "poland.db" "a@x.com" s') = Some (Some 1)
  /\ (email_sent <$> lead_at "poland.db" "b@x.com" s') = Some (Some 0)
  /\ (email_sent <$> lead_at "poland.db" "c@x.com" s') = Some (Some 1).
Proof. by vm_compute. Qed.

(** ** Loading leads from a CSV file *)

Section Loading.
Variable ctime : nat -> string.
Variable hash_email : string -> string.
Variable validate_email : string -> bool.

Local Abbreviation main_load_rows := (Main.load_rows ctime hash_email validate_email).
Local Abbreviation main_load := (Main.load_csv_to_db ctime hash_email validate_email).
Local Abbreviation scripts_load_rows :=
  (Scripts.load_rows ctime hash_email validate_email).
Local Abbreviation scripts_load :=
  (Scripts.load_csv_to_db ctime hash_email validate_email).

Implicit Types (rows : list CsvRow) (t : list Lead) (l : Main.Loading).
Implicit Types (s : State) (manager : CampaignManager).

Lemma emails_app t t' : emails (t ++ t') = (emails t ++ emails t')%list.
Proof. apply fmap_app. Qed.


Lemma main_load_rows_total rows l :
  in_step l ->
  exists l' added,
    main_load_rows rows l = Some l'
    /\ in_step l'
    /\ Main.table l' = (Main.table l ++ added)%list
    /\ all_known validate_email rows (Main.table l')
    /\ (primary_key (Main.table l) -> primary_key (Main.table l')).
Proof.
  revert l. induction rows as [|row rows IH]; intros l Hstep.
  { exists l, []. split_and!; [done|done|by rewrite app_nil_r| |done].
    intros row Hin. by apply elem_of_nil in Hin. }
  cbn [Main.load_rows].
  destruct (validate_email (csv_email row)) eqn:Hvalid.
  - destruct (bool_decide (csv_email row ∈ Main.existing_emails l)) eqn:Hseen.
    + apply bool_decide_eq_true in Hseen.
      destruct (IH {| Main.table := Main.table l;
                      Main.existing_emails := Main.existing_emails l;
                      Main.now_at := Main.now_at l;
                      Main.new_leads := Main.new_leads l;
                      Main.skipped_duplicates := Main.skipped_duplicates l + 1 |})
        as (l' & added & Hl' & Hstep' & Htable & Hknown & Hkey); [done|].
      exists l', added. split_and!; try done.
      intros row' [->|Hin]%elem_of_cons Hv; [|by apply Hknown].
      cbn [Main.table] in Htable. rewrite Htable, emails_app.
      apply elem_of_app. left. by apply Hstep.
    + apply bool_decide_eq_false in Hseen.
      assert (csv_email row ∉ emails (Main.table l)) as Hfresh
        by (by rewrite <- (Hstep _)).
      unfold insert_lead. cbn [email Main.new_lead].
      rewrite bool_decide_eq_false_2 by done.
      set (r := Main.new_lead hash_email row (ctime (Main.now_at l))).
      destruct (IH {| Main.table := (Main.table l ++ [r])%list;
                      Main.existing_emails :=
                        {[ csv_email row ]} ∪ Main.existing_emails l;
                      Main.now_at := S (Main.now_at l);
                      Main.new_leads := Main.new_leads l + 1;
                      Main.skipped_duplicates := Main.skipped_duplicates l |})
        as (l' & added & Hl' & Hstep' & Htable & Hknown & Hkey).
      { intros e. cbn [Main.table Main.existing_emails].
        rewrite emails_app, elem_of_app, elem_of_union, elem_of_singleton.
        rewrite (Hstep e). cbn. rewrite list_elem_of_singleton. tauto. }
      cbn [Main.table] in Htable, Hkey.
      exists l', (r :: added). split_and!; try done.
      * by rewrite Htable, <- app_assoc.
      * intros row' [->|Hin]%elem_of_cons Hv; [|by apply Hknown].
        rewrite Htable, !emails_app, !elem_of_app. left. right.
        by apply list_elem_of_singleton.
      * intros Hk. apply Hkey. unfold primary_key in *.
        change (map email) with (emails). rewrite emails_app.
        apply NoDup_app. split_and!; [done| |by apply NoDup_singleton].
        intros e He [= ->]%list_elem_of_singleton. done.
  - destruct (IH l) as (l' & added & Hl' & Hstep' & Htable & Hknown & Hkey);
      [done|].
    exists l', added. split_and!; try done.
    intros row' [->|Hin]%elem_of_cons Hv; [congruence|by apply Hknown].
Qed.














End Loading.


(** Without the key nothing is ignored: on a table that carries no
    [PRIMARY KEY], as [migrate_counts.py] leaves it, the [INSERT OR IGNORE]
    of [scripts/main.py] appends a row for an address that is a lead
    already, while the screening of [main.py] by [existing_emails] skips
    it. *)
Example import_without_the_key :
  let s := Sample.store [Sample.lead "a@x.com" "tok-a" "yellow" 3] in
  let rows := [ {| csv_email := "a@x.com"; csv_first_name := Some "Ann" |} ] in
  emails (leads_of "poland.db"
            (Scripts.load_csv_to_db Sample.stamp Sample.digest Sample.validator
               false rows "poland.db" s)) = ["a@x.com"; "a@x.com"]
  /\ emails (leads_of "poland.db"
               (Scripts.load_csv_to_db Sample.stamp Sample.digest
                  Sample.validator true rows "poland.db" s)) = ["a@x.com"]
  /\ ((fun r => emails (leads_of "poland.db" r.1)) <$>
        Main.load_csv_to_db Sample.stamp Sample.digest Sample.validator rows
          Sample.poland s) = Some ["a@x.com"].
Proof. by vm_compute. Qed.

(** * Further properties *)

(** ** What the tracking endpoints keep *)

Section TrackingKeeps.
Variable campaign_managers : gmap string CampaignManager.
Variable ctime : nat -> string.

Local Abbreviation get_campaign_manager :=
  (Server.get_campaign_manager campaign_managers).
Local Abbreviation track_open := (Server.track_open campaign_managers ctime).
Local Abbreviation track_link := (Server.track_link campaign_managers ctime).

Implicit Types (s : State) (r row : Lead) (path e h : string) (n : Z).

Lemma track_open_tracked email_hash campaign_name s :
  tracked s (track_open email_hash campaign_name s).1.
Proof.
  unfold Server.track_open.
  destruct email_hash as [h|]; [|by left].
  destruct (negb (truthy (Some h))); [by left|]. cbn [fst].
  destruct (get_campaign_manager campaign_name) as [manager|]; [|by left].
  destruct (select_by_hash h (leads_of (get_db_path manager) s)) as [row|] eqn:Hrow;
    [|by left].
  destruct (interact_count row) as [m|] eqn:Hm; [|by left].
  apply select_by_hash_elem in Hrow as [Hin _].
  right. exists (get_db_path manager), row, m.
  destruct (negb (truthy (opened_timestamp row))); eexists; by split_and!.
Qed.

Lemma track_link_tracked email_hash destination campaign s :
  tracked s (track_link email_hash destination campaign s).1.
Proof.
  unfold Server.track_link.
  destruct email_hash as [h|], destination as [dest|]; try by left.
  destruct (negb (truthy (Some h)) || negb (truthy (Some dest))); [by left|].
  destruct (get_campaign_manager (Some (default "poland" campaign)))
    as [manager|]; [|by left]. cbn [fst].
  destruct (select_by_hash h (leads_of (get_db_path manager) s)) as [row|] eqn:Hrow;
    [|by left].
  destruct (interact_count row) as [m|] eqn:Hm; [|by left].
  apply select_by_hash_elem in Hrow as [Hin _].
  right. exists (get_db_path manager), row, m.
  destruct (String.prefix _ dest); [eexists; by split_and!|].
  destruct (negb (is_text (status row) "red")); eexists; by split_and!.
Qed.

Lemma tracked_emails s s' path :
  tracked s s' -> emails (leads_of path s') = emails (leads_of path s).
Proof.
  intros [->|(path0 & row & m & f & _ & _ & -> & Hf)]; [done|].
  destruct (decide (path0 = path)) as [->|Hne].
  - rewrite leads_of_commit. apply emails_update.
    intros r. destruct (Hf r) as [Hkept _]. by injection Hkept.
  - by rewrite leads_of_commit_ne.
Qed.

Lemma tracked_kept s s' path e :
  tracked s s' ->
  kept_columns <$> lead_at path e s' = kept_columns <$> lead_at path e s.
Proof.
  intros [->|(path0 & row & m & f & _ & _ & -> & Hf)]; [done|].
  assert (forall r, email (f r) = email r) as Hemail.
  { intros r. destruct (Hf r) as [Hkept _]. by injection Hkept. }
  unfold lead_at. destruct (decide (path0 = path)) as [->|Hne].
  - rewrite leads_of_commit.
    destruct (decide (e = email row)) as [->|He].
    + rewrite select_by_email_update by done.
      destruct (select_by_email (email row) (leads_of path s)) as [r|]; [|done].
      cbn. f_equal. apply Hf.
    + by rewrite select_by_email_update_ne.
  - by rewrite leads_of_commit_ne.
Qed.

Lemma tracked_count s s' path e r n :
  tracked s s' ->
  primary_key (leads_of path s) ->
  lead_at path e s = Some r ->
  interact_count r = Some n ->
  exists r',
    lead_at path e s' = Some r'
    /\ (interact_count r' = Some n \/ interact_count r' = Some (n + 1)).
Proof.
  intros [->|(path0 & row & m & f & Hin & Hm & -> & Hf)] Hkey Hr Hn;
    [exists r; by split; [|left]|].
  assert (forall r, email (f r) = email r) as Hemail.
  { intros r0. destruct (Hf r0) as [Hkept _]. by injection Hkept. }
  unfold lead_at in *. destruct (decide (path0 = path)) as [->|Hne].
  - rewrite leads_of_commit.
    destruct (decide (e = email row)) as [->|He].
    + rewrite select_by_email_update, Hr by done.
      rewrite (select_by_email_primary_key _ _ Hkey Hin) in Hr.
      injection Hr as <-. exists (f row). split; [done|].
      right. destruct (Hf row) as [_ ->]. congruence.
    + rewrite select_by_email_update_ne by done.
      exists r. by split; [|left].
  - rewrite leads_of_commit_ne by done. exists r. by split; [|left].
Qed.

(** X1. An open or a click event never adds or removes a lead: in every
    table the addresses are, in order, the ones that were there before. *)
Theorem tracking_keeps_the_leads email_hash destination campaign s path :
  emails (leads_of path (track_open email_hash campaign s).1)
  = emails (leads_of path s)
  /\ emails (leads_of path (track_link email_hash destination campaign s).1)
     = emails (leads_of path s).
Proof.
  split; apply tracked_emails;
    [apply track_open_tracked | apply track_link_tracked].
Qed.

(** X2. An open or a click event writes no column of any lead other than
    [status], [opened_timestamp], [interact_count] and
    [last_interact_timestamp]: [email_sent], [sent_template], [notes],
    [timestamp], [first_name] and [hash] are as before. *)
Theorem tracking_keeps_the_other_columns email_hash destination campaign s path e :
  kept_columns <$> lead_at path e (track_open email_hash campaign s).1
  = kept_columns <$> lead_at path e s
  /\ kept_columns <$> lead_at path e
       (track_link email_hash destination campaign s).1
     = kept_columns <$> lead_at path e s.
Proof.
  split; apply tracked_kept;
    [apply track_open_tracked | apply track_link_tracked].
Qed.

(** X3. Under the primary key, no open or click event, whatever its token,
    lowers the [interact_count] of a lead: the count stays or grows by
    one. *)
Theorem tracking_never_lowers_the_count
    email_hash destination campaign s path e r n :
  primary_key (leads_of path s) ->
  lead_at path e s = Some r ->
  interact_count r = Some n ->
  (exists r',
     lead_at path e (track_open email_hash campaign s).1 = Some r'
     /\ (interact_count r' = Some n \/ interact_count r' = Some (n + 1)))
  /\ (exists r',
       lead_at path e (track_link email_hash destination campaign s).1 = Some r'
       /\ (interact_count r' = Some n \/ interact_count r' = Some (n + 1))).
Proof.
  intros Hkey Hr Hn.
  split; eapply tracked_count; eauto using track_open_tracked, track_link_tracked.
Qed.

(** X4. A tracking event for a lead whose [interact_count] is NULL is lost:
    the addition raises, the exception is swallowed, the state is the one
    before, and the image or the redirect is returned all the same. *)
Theorem tracking_event_is_lost_on_null_count h dest c manager s row :
  h <> "" -> dest <> "" ->
  get_campaign_manager (Some c) = Some manager ->
  select_by_hash h (leads_of (db_path manager) s) = Some row ->
  interact_count row = None ->
  track_open (Some h) (Some c) s = (s, Image pixel 200 "image/gif")
  /\ track_link (Some h) (Some dest) (Some c) s = (s, Redirect dest).
Proof.
  intros Hh Hd Hm Hrow Hn. apply truthy_Some in Hh, Hd. split.
  - unfold Server.track_open. rewrite Hh, Hm. cbn [negb].
    unfold get_db_path. by rewrite Hrow, Hn.
  - unfold Server.track_link. rewrite Hh, Hd.
    cbn [negb orb default from_option id]. rewrite Hm.
    unfold get_db_path. by rewrite Hrow, Hn.
Qed.

End TrackingKeeps.

(** X3, on the sample campaign: [a@x.com] opens the mail and follows a link;
    the count of [b@x.com] does not fall. *)
Lemma tracking_never_lowers_the_count_witness :
  let s := Sample.store [Sample.lead "a@x.com" "tok-a" "gray" 0;
                         Sample.lead "b@x.com" "tok-b" "yellow" 4] in
  (exists r',
     lead_at "poland.db" "b@x.com"
       (Server.track_open Sample.registry Sample.stamp (Some "tok-a")
          (Some "poland") s).1 = Some r'
     /\ (interact_count r' = Some 4 \/ interact_count r' = Some (4 + 1)))
  /\ (exists r',
       lead_at "poland.db" "b@x.com"
         (Server.track_link Sample.registry Sample.stamp (Some "tok-a")
            (Some "https://shop.themysticaroma.com") (Some "poland") s).1
       = Some r'
       /\ (interact_count r' = Some 4 \/ interact_count r' = Some (4 + 1))).
Proof.
  intros s.
  apply (tracking_never_lowers_the_count Sample.registry Sample.stamp
           (Some "tok-a") (Some "https://shop.themysticaroma.com")
           (Some "poland") s "poland.db" "b@x.com"
           (Sample.lead "b@x.com" "tok-b" "yellow" 4) 4); run.
Defined.

(** X4, on the sample campaign: the counter of [a@x.com] is NULL. *)
Lemma tracking_event_is_lost_on_null_count_witness :
  let s := Sample.store
             [set_interact_count None (Sample.lead "a@x.com" "tok-a" "gray" 0)] in
  Server.track_open Sample.registry Sample.stamp (Some "tok-a") (Some "poland") s
  = (s, Image pixel 200 "image/gif")
  /\ Server.track_link Sample.registry Sample.stamp (Some "tok-a")
       (Some "https://shop.themysticaroma.com") (Some "poland") s
     = (s, Redirect "https://shop.themysticaroma.com").
Proof.
  intros s.
  apply (tracking_event_is_lost_on_null_count Sample.registry Sample.stamp
           "tok-a" "https://shop.themysticaroma.com" "poland" Sample.poland s
           (set_interact_count None (Sample.lead "a@x.com" "tok-a" "gray" 0)));
    run.
Defined.

(** ** Edges of sending *)

Section SendingEdges.
Variable ctime : nat -> string.
Variable smtp_ok : list effect -> string -> bool.

Local Abbreviation server_send := (Server.send_email ctime smtp_ok).
Local Abbreviation main_send_email := (Main.send_email ctime smtp_ok).

Implicit Types (s : State) (r : Lead) (manager : CampaignManager).
Implicit Types (e : string) (t : list Lead).

Lemma update_where_email_absent e (f : Lead -> Lead) t :
  e ∉ emails t -> update_where_email e f t = t.
Proof.
  unfold emails, update_where_email.
  induction t as [|r t IH]; [done|]. cbn [map].
  intros [Hne Ht]%not_elem_of_cons. rewrite IH by done.
  by assert (String.eqb (email r) e = false) as -> by (by apply String.eqb_neq).
Qed.

Lemma select_by_email_absent e t :
  select_by_email e t = None -> e ∉ emails t.
Proof.
  unfold select_by_email, emails.
  induction t as [|r t IH]; cbn [find map]; [intros _; apply not_elem_of_nil|].
  destruct (String.eqb (email r) e) eqn:Hr; [done|].
  apply String.eqb_neq in Hr. intros Ht. apply not_elem_of_cons. auto.
Qed.

(** X5. A mail to an address that is no lead of the campaign is handed to
    the transport all the same; when it is delivered [send_email] returns
    [True], and the table is left as it was, row for row. *)
Theorem send_to_an_unknown_address manager e first_name attachment template_path s :
  lead_at (db_path manager) e s = None ->
  fits attachment ->
  smtp_ok (outbox s) e = true ->
  let served := server_send manager e first_name s in
  let mained := main_send_email manager e first_name attachment template_path s in
  (served.2 = true
   /\ outbox served.1 = (outbox s ++ [Smtp e true])%list
   /\ leads_of (db_path manager) served.1 = leads_of (db_path manager) s)
  /\ (mained.2 = true
      /\ outbox mained.1 = (outbox s ++ [Smtp e true])%list
      /\ leads_of (db_path manager) mained.1 = leads_of (db_path manager) s).
Proof.
  intros Hnone Hfits Hok served mained. subst served mained.
  unfold lead_at in Hnone.
  pose proof (select_by_email_absent _ _ Hnone) as Habsent.
  unfold Server.send_email, Main.send_email, get_db_path.
  rewrite Hnone. cbn [Server.decided Server.count_of].
  assert (match attachment with
          | Some size => Z.ltb (5 * 1024 * 1024) size
          | None => false
          end = false) as ->.
  { destruct attachment as [size|]; [|done]. simpl in Hfits. lia. }
  rewrite Hok. cbn [fst snd outbox emit commit tick].
  rewrite !leads_of_commit.
  split; (split_and!; [done|done|]); by apply update_where_email_absent.
Qed.

(** X6. A lead whose [interact_count] is NULL: the mail is delivered, the
    addition that follows raises inside the [try], and the send is recorded
    as failed -- [email_sent] 0 and the result [False] -- so the lead is
    still selected by the dispatcher. *)
Theorem delivered_send_is_recorded_as_failed_on_null_count
    manager e first_name attachment template_path s r :
  lead_at (db_path manager) e s = Some r ->
  eligible r = true ->
  interact_count r = None ->
  fits attachment ->
  smtp_ok (outbox s) e = true ->
  let served := server_send manager e first_name s in
  let mained := main_send_email manager e first_name attachment template_path s in
  (served.2 = false
   /\ outbox served.1 = (outbox s ++ [Smtp e true])%list
   /\ exists r',
       lead_at (db_path manager) e served.1 = Some r'
       /\ email_sent r' = Some 0 /\ eligible r' = true)
  /\ (mained.2 = false
      /\ outbox mained.1 = (outbox s ++ [Smtp e true])%list
      /\ exists r',
          lead_at (db_path manager) e mained.1 = Some r'
          /\ email_sent r' = Some 0 /\ eligible r' = true).
Proof.
  intros Hr Heligible Hn Hfits Hok served mained. subst served mained.
  pose proof (eligible_not_decided r Heligible) as Hdecided.
  rewrite (server_send_email_attempt ctime smtp_ok manager e first_name s r)
    by done.
  rewrite (main_send_email_attempt ctime smtp_ok manager e first_name attachment
             template_path s r) by done.
  rewrite Hok, Hn. cbn [fst snd outbox emit commit]. unfold lead_at in *.
  rewrite !leads_of_commit, !select_by_email_update, Hr by done.
  assert (eligible (set_email_sent (Some 0) r) = true) as Hstill.
  { unfold eligible in *. cbn. apply andb_prop in Heligible as [-> _]. done. }
  split; (split_and!; [done|done|]); by eexists.
Qed.

End SendingEdges.

(** X5, on the sample campaign: a mail to [z@x.com], which is no lead. *)
Lemma send_to_an_unknown_address_witness :
  let s := Sample.store [Sample.lead "a@x.com" "tok-a" "gray" 0] in
  let served :=
    Server.send_email Sample.stamp Sample.delivers Sample.poland "z@x.com"
      None s in
  let mained :=
    Main.send_email Sample.stamp Sample.delivers Sample.poland "z@x.com" None
      None None s in
  (served.2 = true
   /\ outbox served.1 = [Smtp "z@x.com" true]
   /\ leads_of "poland.db" served.1 = leads_of "poland.db" s)
  /\ (mained.2 = true
      /\ outbox mained.1 = [Smtp "z@x.com" true]
      /\ leads_of "poland.db" mained.1 = leads_of "poland.db" s).
Proof.
  intros s.
  apply (send_to_an_unknown_address Sample.stamp Sample.delivers Sample.poland
           "z@x.com" None None None s); run.
Defined.

(** X6, on the sample campaign: the counter of [a@x.com] is NULL. *)
Lemma delivered_send_is_recorded_as_failed_on_null_count_witness :
  let r := set_interact_count None (Sample.lead "a@x.com" "tok-a" "gray" 0) in
  let s := Sample.store [r] in
  let served :=
    Server.send_email Sample.stamp Sample.delivers Sample.poland "a@x.com"
      None s in
  let mained :=
    Main.send_email Sample.stamp Sample.delivers Sample.poland "a@x.com" None
      None None s in
  (served.2 = false
   /\ outbox served.1 = [Smtp "a@x.com" true]
   /\ exists r',
       lead_at "poland.db" "a@x.com" served.1 = Some r'
       /\ email_sent r' = Some 0 /\ eligible r' = true)
  /\ (mained.2 = false
      /\ outbox mained.1 = [Smtp "a@x.com" true]
      /\ exists r',
          lead_at "poland.db" "a@x.com" mained.1 = Some r'
          /\ email_sent r' = Some 0 /\ eligible r' = true).
Proof.
  intros r s.
  apply (delivered_send_is_recorded_as_failed_on_null_count Sample.stamp
           Sample.delivers Sample.poland "a@x.com" None None None s r); run.
Defined.

(** ** When [run_campaign] returns *)

Section RunCampaign.
Variable ctime : nat -> string.
Variable smtp_ok : list effect -> string -> bool.
Variable manager : CampaignManager.

Local Abbreviation path := (db_path manager).
Local Abbreviation server_send := (Server.send_email ctime smtp_ok manager).
Local Abbreviation for_each_lead := (Server.for_each_lead ctime smtp_ok manager).
Local Abbreviation run_campaign := (Server.run_campaign ctime smtp_ok).
Local Abbreviation server_turn :=
  (fun (l : string * option string) (s : State) =>
     let (s1, ok) := Server.send_email ctime smtp_ok manager l.1 l.2 s in
     if ok then emit (Sleep (delay manager)) s1 else s1).

Implicit Types (s : State) (r : Lead) (e : string) (t : list Lead).
Implicit Types (leads : list (string * option string)).

Lemma select_by_email_In e t r :
  select_by_email e t = Some r -> r ∈ t /\ email r = e.
Proof.
  unfold select_by_email. intros [Hin He]%find_some.
  split; [by apply list_elem_of_In | by apply String.eqb_eq].
Qed.

(** [send_email] touches the rows of its own address only, and no address
    appears or disappears. *)
Lemma server_send_frame e first_name s :
  (forall e', e' <> e ->
     lead_at path e' (server_send e first_name s).1 = lead_at path e' s)
  /\ emails (leads_of path (server_send e first_name s).1)
     = emails (leads_of path s).
Proof.
  unfold Server.send_email, lead_at, get_db_path.
  destruct (Server.decided _); [done|].
  destruct (smtp_ok (outbox s) e); [destruct (Server.count_of _)|];
    cbn [fst]; rewrite leads_of_commit;
    (split; [intros e' He'; by rewrite select_by_email_update_ne
            | by apply emails_update]).
Qed.

Lemma server_turn_frame l s :
  (forall e', e' <> l.1 -> lead_at path e' (server_turn l s) = lead_at path e' s)
  /\ emails (leads_of path (server_turn l s)) = emails (leads_of path s).
Proof.
  destruct (server_send_frame l.1 l.2 s) as [Hframe Hemails].
  destruct (server_send l.1 l.2 s) as [s1 [|]]; by split.
Qed.

Lemma stuck_turn e l s : stuck smtp_ok path e s -> stuck smtp_ok path e (server_turn l s).
Proof.
  intros (r & Hr & Heligible & Hwhy).
  destruct (decide (l.1 = e)) as [<-|Hne].
  - pose proof (eligible_not_decided r Heligible) as Hdecided.
    assert (eligible (set_email_sent (Some 0) r) = true) as Hstill.
    { unfold eligible in *. cbn. by apply andb_prop in Heligible as [-> _]. }
    rewrite (server_send_email_attempt ctime smtp_ok manager l.1 l.2 s r) by done.
    cbv zeta. exists (set_email_sent (Some 0) r). unfold lead_at in *.
    destruct Hwhy as [Hn|Hnever].
    + rewrite Hn.
      destruct (smtp_ok (outbox s) l.1);
        rewrite leads_of_commit, select_by_email_update, Hr by done;
        split_and!; auto.
    + rewrite Hnever.
      rewrite leads_of_commit, select_by_email_update, Hr by done.
      split_and!; auto.
  - exists r. destruct (server_turn_frame l s) as [Hframe _].
    rewrite Hframe by done. done.
Qed.

Lemma stuck_round e leads s : stuck smtp_ok path e s -> stuck smtp_ok path e (for_each_lead leads s).
Proof.
  rewrite server_for_each_lead_foldl. revert s.
  induction leads as [|l leads IH]; intros s Hstuck; [done|].
  cbn [foldl]. by apply IH, stuck_turn.
Qed.

Lemma stuck_selected e s :
  stuck smtp_ok path e s -> select_eligible (leads_of path s) <> [].
Proof.
  intros (r & [Hin _]%select_by_email_In & Heligible & _) Hnil.
  assert ((email r, first_name r) ∈ select_eligible (leads_of path s)) as Hsel.
  { unfold select_eligible.
    apply (list_elem_of_fmap_2 (fun r => (email r, first_name r))).
    by apply list_elem_of_filter. }
  rewrite Hnil in Hsel. by apply elem_of_nil in Hsel.
Qed.

(** X7. [run_campaign] does not return while a selected lead cannot be
    recorded as sent -- its counter is NULL, or the transport never delivers
    to it: whatever the number of rounds, the loop is still running. *)
Theorem run_campaign_does_not_return e s r fuel :
  lead_at path e s = Some r ->
  eligible r = true ->
  interact_count r = None \/ (forall o, smtp_ok o e = false) ->
  run_campaign fuel manager s = None.
Proof.
  intros Hr Heligible Hwhy.
  assert (stuck smtp_ok path e s) as Hstuck by (by exists r). clear Hr Heligible Hwhy r.
  revert s Hstuck. induction fuel as [|fuel IH]; intros s Hstuck; [done|].
  cbn [Server.run_campaign]. unfold get_db_path.
  pose proof (stuck_selected e s Hstuck) as Hsel.
  destruct (select_eligible (leads_of path s)) as [|l leads] eqn:Hleads; [done|].
  by apply IH, stuck_round.
Qed.

Lemma server_turn_sent l s :
  (forall o a, smtp_ok o a = true) ->
  ready path s l.1 ->
  exists r',
    lead_at path l.1 (server_turn l s) = Some r' /\ email_sent r' = Some 1.
Proof.
  intros Hall (r & Hr & Hdecided & Hcount).
  rewrite (server_send_email_attempt ctime smtp_ok manager l.1 l.2 s r) by done.
  cbv zeta. rewrite Hall.
  destruct (interact_count r) as [n|]; [|done]. unfold lead_at in *.
  rewrite leads_of_emit, leads_of_commit, select_by_email_update, Hr by done.
  by eexists.
Qed.

Lemma round_all_sent leads s :
  (forall o a, smtp_ok o a = true) ->
  NoDup (leads.*1) ->
  (forall e, e ∈ leads.*1 -> ready path s e) ->
  let s' := foldl (fun s l => server_turn l s) s leads in
  (forall e, e ∈ leads.*1 ->
     exists r', lead_at path e s' = Some r' /\ email_sent r' = Some 1)
  /\ (forall e, e ∉ leads.*1 -> lead_at path e s' = lead_at path e s)
  /\ emails (leads_of path s') = emails (leads_of path s).
Proof.
  intros Hall. revert s.
  induction leads as [|l leads IH]; intros s Hnodup Hready; cbn zeta.
  { split_and!; [|done..]. intros e He. by apply elem_of_nil in He. }
  rewrite fmap_cons in Hnodup, Hready.
  apply NoDup_cons in Hnodup as [Hfresh Hnodup].
  destruct (server_turn_frame l s) as [Hframe Hemails].
  destruct (server_turn_sent l s Hall) as (r' & Hr' & Hsent);
    [apply Hready; by left|].
  destruct (IH (server_turn l s)) as (Hsents & Hkept & Hsame); [done| |].
  { intros e He. apply (ready_frame path s).
    - apply Hframe. by intros ->.
    - apply Hready. by right. }
  cbn [foldl]. split_and!.
  - intros e [->|He]%elem_of_cons; [|by apply Hsents].
    exists r'. by rewrite Hkept.
  - intros e [He ?]%not_elem_of_cons. rewrite Hkept by done. by apply Hframe.
  - by rewrite Hsame.
Qed.

(** X8. When the transport delivers every mail, [run_campaign] returns after
    one round: every lead that was selected has [email_sent] 1 and the next
    selection is empty. *)
Theorem run_campaign_returns_when_all_is_delivered s fuel :
  (forall o a, smtp_ok o a = true) ->
  primary_key (leads_of path s) ->
  Forall (fun r => eligible r = true -> interact_count r <> None)
    (leads_of path s) ->
  exists s',
    run_campaign (S (S fuel)) manager s = Some s'
    /\ select_eligible (leads_of path s') = []
    /\ forall e, e ∈ (select_eligible (leads_of path s)).*1 ->
         exists r', lead_at path e s' = Some r' /\ email_sent r' = Some 1.
Proof.
  intros Hall Hkey Hcount.
  assert (NoDup ((select_eligible (leads_of path s)).*1)) as Hnodup
    by (by apply select_eligible_NoDup).
  assert (forall e, e ∈ (select_eligible (leads_of path s)).*1 -> ready path s e)
    as Hready by (intros e; by apply select_eligible_ready).
  cbn [Server.run_campaign]. unfold get_db_path.
  remember (select_eligible (leads_of path s)) as leads eqn:Hleads.
  destruct (round_all_sent leads s Hall Hnodup Hready) as (Hsents & Hkept & Hsame).
  set (s' := foldl (fun s l => server_turn l s) s leads) in *.
  assert (select_eligible (leads_of path s') = []) as Hdone.
  { destruct (select_eligible (leads_of path s')) as [|x xs] eqn:Hsel; [done|].
    exfalso.
    assert (x.1 ∈ (select_eligible (leads_of path s')).*1) as Hx
      by (rewrite Hsel, fmap_cons; by left).
    rewrite select_eligible_emails in Hx.
    apply list_elem_of_fmap in Hx as (r' & Hemail & [Heligible Hin]%list_elem_of_filter).
    assert (primary_key (leads_of path s')) as Hkey'
      by (unfold primary_key in *; change (map email) with emails; by rewrite Hsame).
    pose proof (select_by_email_primary_key _ _ Hkey' Hin) as Hlead.
    fold (lead_at path (email r') s') in Hlead.
    destruct (decide (email r' ∈ leads.*1)) as [Hsel'|Hsel'].
    - destruct (Hsents _ Hsel') as (r'' & Hr'' & Hsent).
      rewrite Hlead in Hr''. injection Hr'' as <-.
      unfold eligible in Heligible. rewrite Hsent in Heligible.
      by apply andb_prop in Heligible as [_ ?].
    - rewrite Hkept in Hlead by done.
      apply select_by_email_In in Hlead as [Hold _].
      apply Hsel'. rewrite Hleads, select_eligible_emails.
      apply list_elem_of_fmap_2. by apply list_elem_of_filter. }
  exists s'. split_and!; [|done|done].
  destruct leads as [|l leads']; [done|].
  rewrite server_for_each_lead_foldl. fold s'. by rewrite Hdone.
Qed.

End RunCampaign.

(** X7, on the sample campaign: the transport never delivers to
    [b@x.com]. *)
Lemma run_campaign_does_not_return_witness :
  Server.run_campaign Sample.stamp (Sample.fails_for "b@x.com") 5 Sample.poland
    (Sample.store [Sample.lead "a@x.com" "tok-a" "gray" 0;
                   Sample.lead "b@x.com" "tok-b" "gray" 0]) = None.
Proof.
  apply (run_campaign_does_not_return Sample.stamp (Sample.fails_for "b@x.com")
           Sample.poland "b@x.com" _ (Sample.lead "b@x.com" "tok-b" "gray" 0));
    [run | run |].
  right. intros o. unfold Sample.fails_for. by rewrite String.eqb_refl.
Defined.

(** X8, on the sample campaign: two gray leads and a transport that
    delivers. *)
Lemma run_campaign_returns_when_all_is_delivered_witness :
  let s := Sample.store [Sample.lead "a@x.com" "tok-a" "gray" 0;
                         Sample.lead "b@x.com" "tok-b" "gray" 0] in
  exists s',
    Server.run_campaign Sample.stamp Sample.delivers 2 Sample.poland s = Some s'
    /\ select_eligible (leads_of (db_path Sample.poland) s') = []
    /\ forall e,
         e ∈ (select_eligible (leads_of (db_path Sample.poland) s)).*1 ->
         exists r',
           lead_at (db_path Sample.poland) e s' = Some r'
           /\ email_sent r' = Some 1.
Proof.
  intros s.
  apply (run_campaign_returns_when_all_is_delivered Sample.stamp Sample.delivers
           Sample.poland s 0).
  - done.
  - run.
  - apply (bool_decide_unpack _). vm_compute. exact I.
Defined.

(** ** Whom the dispatcher mails *)

Section OnlySelected.
Variable ctime : nat -> string.
Variable smtp_ok : list effect -> string -> bool.
Variable manager : CampaignManager.
Variable attachment : option Z.
Variable template_path : option string.

Local Abbreviation path := (db_path manager).
Local Abbreviation server_turn :=
  (fun (l : string * option string) (s : State) =>
     let (s1, ok) := Server.send_email ctime smtp_ok manager l.1 l.2 s in
     if ok then emit (Sleep (delay manager)) s1 else s1).
Local Abbreviation main_turn :=
  (fun (l : string * option string) (s : State) =>
     let (s1, ok) :=
       Main.send_email ctime smtp_ok manager l.1 l.2 attachment template_path s in
     if ok then emit (Sleep (delay manager)) s1
     else commit path
            (update_where_email l.1 (set_email_sent (Some 0)) (leads_of path s1))
            s1).

Implicit Types (s : State) (l : string * option string).
Implicit Types (leads : list (string * option string)).

Lemma server_turn_at_most_its_own : at_most_its_own server_turn.
Proof.
  intros [e fn] s. cbn [fst snd]. unfold Server.send_email.
  destruct (Server.decided _).
  { exists []. split; [by rewrite app_nil_r | apply sublist_nil_l]. }
  exists [(e, smtp_ok (outbox s) e)]. split; [|reflexivity].
  destruct (smtp_ok (outbox s) e); [destruct (Server.count_of _)|];
    cbn [outbox emit commit tick]; rewrite ?attempts_app; cbn [attempts omap];
    by rewrite ?app_nil_r.
Qed.

Lemma main_turn_at_most_its_own : at_most_its_own main_turn.
Proof.
  intros [e fn] s. cbn [fst snd]. unfold Main.send_email.
  destruct (Server.decided _).
  { exists []. split; [by rewrite app_nil_r | apply sublist_nil_l]. }
  destruct (match attachment with Some _ => _ | None => _ end).
  { exists []. split; [by rewrite app_nil_r | apply sublist_nil_l]. }
  exists [(e, smtp_ok (outbox s) e)]. split; [|reflexivity].
  destruct (smtp_ok (outbox s) e); [destruct (Server.count_of _)|];
    cbn [outbox emit commit tick]; rewrite ?attempts_app; cbn [attempts omap];
    by rewrite ?app_nil_r.
Qed.

Lemma foldl_at_most_their_own step leads s :
  at_most_its_own step ->
  exists new,
    attempts (outbox (foldl (fun s l => step l s) s leads))
    = (attempts (outbox s) ++ new)%list
    /\ new.*1 `sublist_of` leads.*1.
Proof.
  intros Hstep. revert s. induction leads as [|l leads IH]; intros s.
  { exists []. split; [by rewrite app_nil_r | apply sublist_nil_l]. }
  destruct (Hstep l s) as (new & Hnew & Hsub).
  destruct (IH (step l s)) as (new' & Hnew' & Hsub').
  exists (new ++ new')%list. cbn [foldl]. split.
  - by rewrite Hnew', Hnew, app_assoc.
  - rewrite fmap_app, fmap_cons. by apply (sublist_app _ [l.1]).
Qed.

(** X9. A run of the dispatcher hands mail to addresses of its selection
    only, in the order of the selection and each as often at most as it was
    selected; and every selected address has a row that is gray and not yet
    marked as sent, so a lead without such a row gets no mail from the run. *)
Theorem only_selected_leads_are_mailed (s : State) :
  let leads := select_eligible (leads_of path s) in
  (exists new,
     attempts (outbox (Server.for_each_lead ctime smtp_ok manager leads s))
     = (attempts (outbox s) ++ new)%list
     /\ new.*1 `sublist_of` leads.*1)
  /\ (exists new,
       attempts
         (outbox (Main.main_send ctime smtp_ok manager attachment
                    template_path s).1)
       = (attempts (outbox s) ++ new)%list
       /\ new.*1 `sublist_of` leads.*1)
  /\ forall e,
       e ∈ leads.*1 <->
       exists r,
         r ∈ leads_of path s /\ email r = e /\ status r = Some "gray"
         /\ (email_sent r = None \/ email_sent r = Some 0).
Proof.
  intros leads. split_and!.
  - rewrite server_for_each_lead_foldl.
    apply (foldl_at_most_their_own server_turn), server_turn_at_most_its_own.
  - unfold Main.main_send, get_db_path. rewrite main_for_each_lead_foldl.
    apply (foldl_at_most_their_own main_turn), main_turn_at_most_its_own.
  - intros e. unfold leads. rewrite select_eligible_emails, list_elem_of_fmap.
    assert (forall r, eligible r = true <->
              status r = Some "gray"
              /\ (email_sent r = None \/ email_sent r = Some 0)) as Hel.
    { intros r. unfold eligible. rewrite andb_true_iff, is_text_true.
      destruct (email_sent r) as [n|].
      - rewrite Z.eqb_eq. split; intros [Hg Hs]; (split; [done|]).
        + right. by f_equal.
        + destruct Hs as [Hs|Hs]; [done|]. by injection Hs.
      - split; intros [Hg _]; (split; [done|]); [by left|done]. }
    split.
    + intros (r & -> & [Hr Hin]%list_elem_of_filter). exists r.
      apply Hel in Hr as [Hg Hs]. by split_and!.
    + intros (r & Hin & <- & Hgray & Hsent). exists r. split; [done|].
      apply list_elem_of_filter. split; [|done]. apply Hel. by split.
Qed.

End OnlySelected.

(** ** What an import leaves *)

Section Imports.
Variable ctime : nat -> string.
Variable hash_email : string -> string.
Variable validate_email : string -> bool.

Local Abbreviation main_load_rows := (Main.load_rows ctime hash_email validate_email).
Local Abbreviation main_load := (Main.load_csv_to_db ctime hash_email validate_email).
Local Abbreviation scripts_load_rows :=
  (Scripts.load_rows ctime hash_email validate_email).
Local Abbreviation scripts_load :=
  (Scripts.load_csv_to_db ctime hash_email validate_email).

Implicit Types (rows : list CsvRow) (t added : list Lead) (l : Main.Loading).
Implicit Types (s : State) (manager : CampaignManager) (e path : string).

Lemma main_load_rows_fresh rows l l' :
  main_load_rows rows l = Some l' ->
  exists added,
    Main.table l' = (Main.table l ++ added)%list
    /\ Forall (freshly_imported hash_email) added.
Proof.
  revert l. induction rows as [|row rows IH]; intros l; cbn [Main.load_rows].
  { intros [= <-]. exists []. by rewrite app_nil_r. }
  destruct (validate_email (csv_email row)); [|apply IH].
  destruct (bool_decide _).
  { intros Hl'. by apply IH in Hl'. }
  destruct (insert_lead _ _) as [t|] eqn:Ht; [|done].
  unfold insert_lead in Ht. destruct (bool_decide _); [done|].
  injection Ht as <-. intros (added & Htable & Hfresh)%IH.
  cbn [Main.table] in Htable. eexists (_ :: added). split.
  - by rewrite Htable, <- app_assoc.
  - constructor; [|done]. by split_and!.
Qed.

Lemma scripts_load_rows_fresh keyed rows t now_at :
  exists added,
    (scripts_load_rows keyed rows t now_at).1 = (t ++ added)%list
    /\ Forall (freshly_imported hash_email) added.
Proof.
  revert t now_at. induction rows as [|row rows IH]; intros t now_at;
    cbn [Scripts.load_rows].
  { exists []. by rewrite app_nil_r. }
  destruct (validate_email (csv_email row)); [|apply IH].
  unfold insert_or_ignore. destruct (keyed && bool_decide _); [apply IH|].
  destruct (IH (t ++ [Scripts.new_lead hash_email row (ctime now_at)])%list
              (S now_at)) as (added & Htable & Hfresh).
  eexists (_ :: added). split.
  - by rewrite Htable, <- app_assoc.
  - constructor; [|done]. by split_and!.
Qed.

Lemma hashes_stored_app t added :
  hashes_stored hash_email t ->
  Forall (freshly_imported hash_email) added ->
  hashes_stored hash_email (t ++ added).
Proof.
  intros Ht Hadded. apply Forall_app. split; [done|].
  eapply Forall_impl; [exact Hadded|]. by intros r (_ & _ & _ & _ & Hh).
Qed.

(** X10. An import by [load_csv_to_db] of [main.py] never fails and never
    rewrites a row: the table afterwards is the table before followed by the
    new rows, each gray, unopened, unsent, with no interaction and with the
    digest of its address; the primary key and the stored digests are kept,
    and the tables of the other databases are not touched. *)
Theorem import_appends_fresh_leads rows manager s :
  exists s' counts added,
    main_load rows manager s = Some (s', counts)
    /\ leads_of (db_path manager) s'
       = (leads_of (db_path manager) s ++ added)%list
    /\ Forall (freshly_imported hash_email) added
    /\ (primary_key (leads_of (db_path manager) s) ->
        primary_key (leads_of (db_path manager) s'))
    /\ (hashes_stored hash_email (leads_of (db_path manager) s) ->
        hashes_stored hash_email (leads_of (db_path manager) s'))
    /\ forall path, path <> db_path manager -> leads_of path s' = leads_of path s.
Proof.
  destruct (main_load_rows_total ctime hash_email validate_email rows
              {| Main.table := leads_of (db_path manager) s;
                 Main.existing_emails :=
                   list_to_set (emails (leads_of (db_path manager) s));
                 Main.now_at := clock s; Main.new_leads := 0;
                 Main.skipped_duplicates := 0 |})
    as (l & _ & Hl & _ & _ & _ & Hkey).
  { intros e. cbn. apply elem_of_list_to_set. }
  destruct (main_load_rows_fresh _ _ _ Hl) as (added & Htable & Hfresh).
  cbn [Main.table] in Htable, Hkey.
  unfold Main.load_csv_to_db, get_db_path. rewrite Hl.
  eexists _, _, added. split; [done|]. rewrite leads_of_commit.
  split_and!; [done|done|done| |].
  - rewrite Htable. intros Hstored. by apply hashes_stored_app.
  - intros path Hne. by rewrite leads_of_commit_ne.
Qed.

Lemma select_by_email_app_absent e t added :
  e ∉ emails t -> select_by_email e (t ++ added) = select_by_email e added.
Proof.
  unfold select_by_email, emails. induction t as [|r t IH]; [done|].
  cbn [map app find]. intros [Hne Ht]%not_elem_of_cons.
  assert (String.eqb (email r) e = false) as -> by (by apply String.eqb_neq).
  by apply IH.
Qed.

Lemma select_by_email_present e t :
  e ∈ emails t -> exists r, select_by_email e t = Some r /\ r ∈ t.
Proof.
  unfold select_by_email, emails. induction t as [|r t IH]; cbn [map find].
  { intros He. by apply elem_of_nil in He. }
  destruct (String.eqb (email r) e) eqn:Hr.
  - intros _. exists r. split; [done|by left].
  - apply String.eqb_neq in Hr. intros [?|He]%elem_of_cons; [congruence|].
    destruct (IH He) as (r' & Hr' & Hin). exists r'. split; [done|by right].
Qed.

Lemma main_load_finds_the_address rows manager s row :
  row ∈ rows ->
  validate_email (csv_email row) = true ->
  exists s' counts r,
    main_load rows manager s = Some (s', counts)
    /\ lead_at (db_path manager) (csv_email row) s' = Some r
    /\ (csv_email row ∉ emails (leads_of (db_path manager) s) ->
        freshly_imported hash_email r /\ eligible r = true).
Proof.
  intros Hrow Hvalid.
  destruct (main_load_rows_total ctime hash_email validate_email rows
              {| Main.table := leads_of (db_path manager) s;
                 Main.existing_emails :=
                   list_to_set (emails (leads_of (db_path manager) s));
                 Main.now_at := clock s; Main.new_leads := 0;
                 Main.skipped_duplicates := 0 |})
    as (l & _ & Hl & _ & _ & Hknown & _).
  { intros e. cbn. apply elem_of_list_to_set. }
  destruct (main_load_rows_fresh _ _ _ Hl) as (added & Htable & Hfresh).
  cbn [Main.table] in Htable.
  pose proof (Hknown row Hrow Hvalid) as Hin.
  destruct (select_by_email_present _ _ Hin) as (r & Hr & _).
  unfold Main.load_csv_to_db, get_db_path. rewrite Hl.
  eexists _, _, r. split; [done|]. unfold lead_at. rewrite leads_of_commit.
  split; [done|]. intros Hnew.
  rewrite Htable, select_by_email_app_absent in Hr by done.
  apply select_by_email_In in Hr as [Hadded _].
  rewrite Forall_forall in Hfresh. pose proof (Hfresh r Hadded) as Hr.
  split; [done|]. destruct Hr as (Hgray & _ & Hsent & _).
  unfold eligible. by rewrite Hgray, Hsent.
Qed.

(** X11. After an import every address of the file that the validator
    accepts is a lead; one that was no lead before is a fresh gray row, which
    the dispatcher selects. *)
Theorem imported_address_is_a_lead rows manager s row :
  row ∈ rows ->
  validate_email (csv_email row) = true ->
  exists s' counts r,
    main_load rows manager s = Some (s', counts)
    /\ lead_at (db_path manager) (csv_email row) s' = Some r
    /\ (csv_email row ∉ emails (leads_of (db_path manager) s) ->
        freshly_imported hash_email r /\ eligible r = true).
Proof. apply main_load_finds_the_address. Qed.

End Imports.

(** X10, on the sample campaign: a file with a new address, a known one and
    one that the validator refuses. *)
Lemma import_appends_fresh_leads_witness :
  let s := Sample.store [Sample.lead "a@x.com" "tok-a" "yellow" 3] in
  let rows := [ {| csv_email := "b@x.com"; csv_first_name := Some "Bea" |};
                {| csv_email := "a@x.com"; csv_first_name := None |};
                {| csv_email := "nobody"; csv_first_name := None |} ] in
  exists s' counts added,
    Main.load_csv_to_db Sample.stamp Sample.digest Sample.validator rows
      Sample.poland s = Some (s', counts)
    /\ leads_of (db_path Sample.poland) s'
       = (leads_of (db_path Sample.poland) s ++ added)%list
    /\ Forall (freshly_imported Sample.digest) added
    /\ (primary_key (leads_of (db_path Sample.poland) s) ->
        primary_key (leads_of (db_path Sample.poland) s'))
    /\ (hashes_stored Sample.digest (leads_of (db_path Sample.poland) s) ->
        hashes_stored Sample.digest (leads_of (db_path Sample.poland) s'))
    /\ forall path,
         path <> db_path Sample.poland -> leads_of path s' = leads_of path s.
Proof.
  intros s rows.
  exact (import_appends_fresh_leads Sample.stamp Sample.digest Sample.validator
           rows Sample.poland s).
Defined.

(** X11, on the sample campaign: [b@x.com] is new to the store. *)
Lemma imported_address_is_a_lead_witness :
  let s := Sample.store [Sample.lead "a@x.com" "tok-a" "yellow" 3] in
  let row := {| csv_email := "b@x.com"; csv_first_name := Some "Bea" |} in
  let rows := [ row; {| csv_email := "a@x.com"; csv_first_name := None |} ] in
  exists s' counts r,
    Main.load_csv_to_db Sample.stamp Sample.digest Sample.validator rows
      Sample.poland s = Some (s', counts)
    /\ lead_at (db_path Sample.poland) "b@x.com" s' = Some r
    /\ freshly_imported Sample.digest r /\ eligible r = true.
Proof.
  intros s row rows.
  destruct (imported_address_is_a_lead Sample.stamp Sample.digest
              Sample.validator rows Sample.poland s row)
    as (s' & counts & r & Hload & Hlead & Hfresh); [by left | run |].
  exists s', counts, r. split_and!; [exact Hload | exact Hlead | |];
    apply Hfresh; apply (bool_decide_unpack _); vm_compute; exact I.
Defined.

(** ** [init_db] *)

Section InitDb.
Implicit Types (s : State) (manager : CampaignManager) (t : list Lead).

Lemma init_rows_initialised t :
  Forall initialised (map interact_count_not_null (map email_sent_not_null t)).
Proof.
  induction t as [|r t IH]; constructor; [|done].
  unfold initialised, interact_count_not_null, email_sent_not_null.
  destruct (email_sent r) eqn:Hs, (interact_count r) eqn:Hc; cbn;
    rewrite ?Hs, ?Hc; cbn; rewrite ?Hs, ?Hc; by split.
Qed.

Lemma init_rows_id t :
  Forall initialised t ->
  map interact_count_not_null (map email_sent_not_null t) = t.
Proof.
  induction 1 as [|r t [Hs Hc] Ht IH]; [done|]. cbn [map]. rewrite IH. f_equal.
  unfold interact_count_not_null, email_sent_not_null.
  destruct (email_sent r); [|done]. by destruct (interact_count r).
Qed.

Lemma init_rows_emails t :
  emails (map interact_count_not_null (map email_sent_not_null t)) = emails t.
Proof.
  unfold emails. rewrite !map_map. apply map_ext. intros r.
  unfold interact_count_not_null, email_sent_not_null.
  destruct (email_sent r) eqn:Hs, (interact_count r) eqn:Hc; cbn;
    rewrite ?Hc; done.
Qed.

(** X12. After [init_db] of [main.py] no row has a NULL [email_sent] or
    [interact_count], so every selected lead has a counter; the addresses and
    their order are as before; and a second [init_db] changes no row. *)
Theorem init_db_fills_the_counters manager s :
  let s' := Main.init_db manager s in
  Forall initialised (leads_of (db_path manager) s')
  /\ Forall (fun r => eligible r = true -> interact_count r <> None)
       (leads_of (db_path manager) s')
  /\ emails (leads_of (db_path manager) s') = emails (leads_of (db_path manager) s)
  /\ leads_of (db_path manager) (Main.init_db manager s')
     = leads_of (db_path manager) s'.
Proof.
  unfold Main.init_db, get_db_path. cbn zeta. rewrite !leads_of_commit.
  pose proof (init_rows_initialised (leads_of (db_path manager) s)) as Hinit.
  split_and!; [done| |apply init_rows_emails|by apply init_rows_id].
  eapply Forall_impl; [exact Hinit|]. by intros r [_ Hc] _.
Qed.

End InitDb.

(** ** The unsubscribe view *)

Section Unsubscribe.
Variable campaign_managers : gmap string CampaignManager.
Variable ctime : nat -> string.
Variable hash_email : string -> string.
Variable unsubscribed_page : string -> string -> string -> string.
Variable smtp_ok : list effect -> string -> bool.

Local Abbreviation get_campaign_manager :=
  (Server.get_campaign_manager campaign_managers).
Local Abbreviation red :=
  (Views.red campaign_managers ctime hash_email unsubscribed_page).
Local Abbreviation green := (Server.green campaign_managers ctime hash_email).

Implicit Types (s : State) (row r : Lead) (manager : CampaignManager).
Implicit Types (h c e : string) (t : list Lead).

Lemma find_by_recomputed_hash_In h t row :
  Server.find_by_recomputed_hash hash_email h t = Some row -> row ∈ t.
Proof.
  unfold Server.find_by_recomputed_hash. intros [Hin _]%find_some.
  by apply list_elem_of_In.
Qed.

Lemma red_resolved h c manager s row :
  h <> "" ->
  get_campaign_manager (Some c) = Some manager ->
  Server.find_by_recomputed_hash hash_email h (leads_of (db_path manager) s)
  = Some row ->
  email row <> "" ->
  red (Some h) (Some c) s =
    (emit (Notification (from_email manager) "Lead Unsubscribed")
       (commit (db_path manager)
          (update_where_email (email row)
             (Server.moved (Some "red") (ctime (clock s)))
             (leads_of (db_path manager) s)) (tick s)),
     Body (unsubscribed_page (email row) h c) 200).
Proof.
  intros Hh Hm Hrow He. unfold Views.red.
  apply truthy_Some in Hh, He. rewrite Hh. cbn [negb default from_option id].
  rewrite Hm. unfold get_db_path. by rewrite Hrow, He.
Qed.

(** X13. A lead that unsubscribes -- the [red] view is called with its token
    -- is set to red with a new [timestamp], its [interact_count] stays, one
    "Lead Unsubscribed" notification is sent and the page is returned; from
    then on the dispatcher does not select the lead and [send_email], in
    [server.py] and in [main.py], skips it without touching the transport. *)
Theorem unsubscribed_lead_gets_no_more_mail
    h c manager s row first_name attachment template_path :
  h <> "" ->
  get_campaign_manager (Some c) = Some manager ->
  primary_key (leads_of (db_path manager) s) ->
  Server.find_by_recomputed_hash hash_email h (leads_of (db_path manager) s)
  = Some row ->
  email row <> "" ->
  let out := red (Some h) (Some c) s in
  out.2 = Body (unsubscribed_page (email row) h c) 200
  /\ outbox out.1
     = (outbox s ++ [Notification (from_email manager) "Lead Unsubscribed"])%list
  /\ (exists r',
        lead_at (db_path manager) (email row) out.1 = Some r'
        /\ status r' = Some "red"
        /\ timestamp r' = Some (ctime (clock s))
        /\ interact_count r' = interact_count row)
  /\ (email row ∉ (select_eligible (leads_of (db_path manager) out.1)).*1)
  /\ Server.send_email ctime smtp_ok manager (email row) first_name out.1
     = (out.1, false)
  /\ Main.send_email ctime smtp_ok manager (email row) first_name attachment
       template_path out.1 = (out.1, false).
Proof.
  intros Hh Hm Hkey Hrow He out. subst out.
  rewrite (red_resolved h c manager s row) by done. cbn [fst snd].
  pose proof (find_by_recomputed_hash_In _ _ _ Hrow) as Hin.
  pose proof (select_by_email_primary_key _ _ Hkey Hin) as Hlead.
  set (t' := update_where_email (email row)
               (Server.moved (Some "red") (ctime (clock s)))
               (leads_of (db_path manager) s)).
  set (s' := emit _ (commit _ t' _)).
  assert (leads_of (db_path manager) s' = t') as Ht'
    by (subst s'; by rewrite leads_of_emit, leads_of_commit).
  assert (select_by_email (email row) t'
          = Some (Server.moved (Some "red") (ctime (clock s)) row)) as Hlead'
    by (subst t'; by rewrite select_by_email_update, Hlead).
  assert (primary_key t') as Hkey'.
  { unfold primary_key in *. change (map email) with emails.
    subst t'. by rewrite emails_update. }
  split_and!; [done|done| | | |].
  - unfold lead_at. rewrite Ht', Hlead'. by eexists.
  - rewrite Ht', select_eligible_emails.
    intros (r2 & Hemail & [Heligible Hin2]%list_elem_of_filter)%list_elem_of_fmap.
    pose proof (select_by_email_primary_key _ _ Hkey' Hin2) as Hr2.
    rewrite <- Hemail, Hlead' in Hr2. injection Hr2 as <-.
    by apply eligible_not_decided in Heligible.
  - unfold Server.send_email, get_db_path. by rewrite Ht', Hlead'.
  - unfold Main.send_email, get_db_path. by rewrite Ht', Hlead'.
Qed.

(** X14. A token that is the digest of no address of the campaign: [green]
    and [red] answer 404, send no notification and leave the state as it is;
    without a token they answer 400. *)
Theorem interest_views_reject_unknown_tokens h c campaign manager s :
  h <> "" ->
  get_campaign_manager (Some c) = Some manager ->
  Server.find_by_recomputed_hash hash_email h (leads_of (db_path manager) s)
  = None ->
  green (Some h) (Some c) s = (s, Body "Lead not found" 404)
  /\ red (Some h) (Some c) s = (s, Body "Lead not found" 404)
  /\ green None campaign s = (s, Body "Invalid request" 400)
  /\ red None campaign s = (s, Body "Invalid request" 400).
Proof.
  intros Hh Hm Hnone. apply truthy_Some in Hh.
  unfold Server.green, Views.red. rewrite Hh.
  cbn [negb truthy default from_option id]. rewrite Hm.
  unfold get_db_path. by rewrite Hnone.
Qed.

End Unsubscribe.

(** X13, on the sample campaign: [a@x.com], a yellow lead, unsubscribes. *)
Lemma unsubscribed_lead_gets_no_more_mail_witness :
  let row := Sample.lead "a@x.com" (Sample.digest "a@x.com") "yellow" 2 in
  let s := Sample.store [row] in
  let page := fun e h c : string => "unsubscribed" in
  let out :=
    Views.red Sample.registry Sample.stamp Sample.digest page
      (Some (Sample.digest "a@x.com")) (Some "poland") s in
  out.2 = Body "unsubscribed" 200
  /\ outbox out.1 = [Notification "sales@example.com" "Lead Unsubscribed"]
  /\ (exists r',
        lead_at "poland.db" "a@x.com" out.1 = Some r'
        /\ status r' = Some "red"
        /\ timestamp r' = Some (Sample.stamp 1)
        /\ interact_count r' = Some 2)
  /\ ("a@x.com" ∉ (select_eligible (leads_of "poland.db" out.1)).*1)
  /\ Server.send_email Sample.stamp Sample.delivers Sample.poland "a@x.com"
       None out.1 = (out.1, false)
  /\ Main.send_email Sample.stamp Sample.delivers Sample.poland "a@x.com" None
       None None out.1 = (out.1, false).
Proof.
  intros row s page out.
  apply (unsubscribed_lead_gets_no_more_mail Sample.registry Sample.stamp
           Sample.digest page Sample.delivers (Sample.digest "a@x.com")
           "poland" Sample.poland s row None None None); run.
Defined.

(** X14, on the sample campaign: the digest of [z@x.com], which is no
    lead. *)
Lemma interest_views_reject_unknown_tokens_witness :
  let s := Sample.store
             [Sample.lead "a@x.com" (Sample.digest "a@x.com") "yellow" 2] in
  let page := fun e h c : string => "unsubscribed" in
  Server.green Sample.registry Sample.stamp Sample.digest
    (Some (Sample.digest "z@x.com")) (Some "poland") s
  = (s, Body "Lead not found" 404)
  /\ Views.red Sample.registry Sample.stamp Sample.digest page
       (Some (Sample.digest "z@x.com")) (Some "poland") s
     = (s, Body "Lead not found" 404)
  /\ Server.green Sample.registry Sample.stamp Sample.digest None None s
     = (s, Body "Invalid request" 400)
  /\ Views.red Sample.registry Sample.stamp Sample.digest page None None s
     = (s, Body "Invalid request" 400).
Proof.
  intros s page.
  apply (interest_views_reject_unknown_tokens Sample.registry Sample.stamp
           Sample.digest page (Sample.digest "z@x.com") "poland" None
           Sample.poland s); run.
Defined.

(** ** The other dashboard actions *)

Section DashboardActions.
Variable campaign_managers : gmap string CampaignManager.
Variable ctime : nat -> string.
Variable hash_email : string -> string.
Variable validate_email : string -> bool.
Variable dashboard_password : string.
Variable unsubscribed_page : string -> string -> string -> string.

Local Abbreviation get_campaign_manager :=
  (Server.get_campaign_manager campaign_managers).
Local Abbreviation verify_password := (Server.verify_password dashboard_password).
Local Abbreviation move_lead :=
  (Server.move_lead campaign_managers ctime dashboard_password).
Local Abbreviation update_notes :=
  (Views.update_notes campaign_managers dashboard_password).
Local Abbreviation delete_lead :=
  (Views.delete_lead campaign_managers dashboard_password).
Local Abbreviation green := (Server.green campaign_managers ctime hash_email).
Local Abbreviation red :=
  (Views.red campaign_managers ctime hash_email unsubscribed_page).

Implicit Types (s : State) (st : Store) (r : Lead) (manager : CampaignManager).
Implicit Types (e c h : string) (t : list Lead).

Lemma verify_password_Some (username password user : string) :
  verify_password username password = Some user <->
  username = "admin" /\ password = dashboard_password /\ user = "admin".
Proof.
  unfold Server.verify_password, Server.users.
  destruct (decide (username = "admin")) as [->|Hne].
  - rewrite lookup_singleton_eq.
    destruct (String.eqb dashboard_password password) eqn:Hp.
    + apply String.eqb_eq in Hp. split; [intros [= <-]|intros (_ & _ & ->)]; done.
    + apply String.eqb_neq in Hp. split; [done|]. by intros (_ & -> & _).
  - rewrite lookup_singleton_ne by done. split; [done|]. by intros (-> & _).
Qed.

Lemma verify_password_None (username password : string) :
  (username, password) <> ("admin", dashboard_password) ->
  verify_password username password = None.
Proof.
  intros Hne. destruct (verify_password username password) as [user|] eqn:Hv;
    [|done].
  apply verify_password_Some in Hv as (-> & -> & _). done.
Qed.

(** X15. The dashboard actions run for one pair of credentials only, the
    user [admin] with the dashboard password; a request with other
    credentials, or with none, is answered 401 by [move_lead], [update_notes]
    and [delete_lead] and changes nothing. *)
Theorem dashboard_actions_need_the_password
    credentials email new_status notes campaign s st :
  credentials <> Some ("admin", dashboard_password) ->
  move_lead credentials email new_status campaign s = (s, Unauthorized)
  /\ update_notes credentials email notes campaign s = (s, Unauthorized)
  /\ delete_lead credentials email campaign st = (st, Unauthorized).
Proof.
  intros Hne.
  unfold Server.move_lead, Views.update_notes, Views.delete_lead,
    Server.login_required.
  destruct credentials as [[username password]|]; [|done].
  rewrite verify_password_None; [done|]. congruence.
Qed.

(** X16. For a campaign that is not configured every action of the
    dashboard and both interest views end in the uncaught exception, as the
    click endpoint does, and leave the state as it is. *)
Theorem views_fail_on_an_unknown_campaign
    c h email new_status notes s st :
  campaign_managers !! c = None ->
  h <> "" ->
  let admin := Some ("admin", dashboard_password) in
  move_lead admin email new_status (Some c) s = (s, ServerError)
  /\ update_notes admin email notes (Some c) s = (s, ServerError)
  /\ delete_lead admin email (Some c) st = (st, ServerError)
  /\ green (Some h) (Some c) s = (s, ServerError)
  /\ red (Some h) (Some c) s = (s, ServerError).
Proof.
  intros Hc Hh admin. subst admin.
  assert (get_campaign_manager (Some c) = None) as Hm.
  { unfold Server.get_campaign_manager. rewrite Hc. by destruct (truthy (Some c)). }
  assert (verify_password "admin" dashboard_password = Some "admin") as Hv
    by (by apply verify_password_Some).
  apply truthy_Some in Hh.
  unfold Server.move_lead, Views.update_notes, Views.delete_lead,
    Server.login_required, Server.green, Views.red.
  rewrite Hv, Hh. cbn [negb default from_option id]. by rewrite Hm.
Qed.

(** X17. [update_notes] writes the submitted notes to the lead and nothing
    else: every other column of the lead, its status and [timestamp]
    included, and every other lead are as before, and the clock is not
    read. *)
Theorem update_notes_writes_the_notes_only c manager e notes s r :
  get_campaign_manager (Some c) = Some manager ->
  lead_at (db_path manager) e s = Some r ->
  let out :=
    update_notes (Some ("admin", dashboard_password)) (Some e) notes (Some c) s in
  out.2 = Redirect ("/dashboard?campaign=" ++ c)
  /\ lead_at (db_path manager) e out.1 = Some (set_notes notes r)
  /\ (forall e', e' <> e ->
        lead_at (db_path manager) e' out.1 = lead_at (db_path manager) e' s)
  /\ clock out.1 = clock s
  /\ outbox out.1 = outbox s.
Proof.
  intros Hm Hr out. subst out.
  assert (verify_password "admin" dashboard_password = Some "admin") as Hv
    by (by apply verify_password_Some).
  unfold Views.update_notes, Server.login_required. rewrite Hv.
  cbn [default from_option id]. rewrite Hm. cbn [fst snd].
  unfold lead_at, get_db_path in *. rewrite leads_of_commit.
  split_and!; [done| |  |done|done].
  - by rewrite select_by_email_update, Hr.
  - intros e' He'. by rewrite select_by_email_update_ne.
Qed.

Lemma select_by_email_delete e t :
  select_by_email e (delete_where_email e t) = None.
Proof.
  unfold select_by_email, delete_where_email.
  induction t as [|r t IH]; [done|]. rewrite filter_cons.
  destruct (decide (email r <> e)) as [Hne|Heq]; [|done].
  cbn [find]. by assert (String.eqb (email r) e = false) as ->
    by (by apply String.eqb_neq).
Qed.

Lemma select_by_email_delete_ne e e' t :
  e' <> e ->
  select_by_email e' (delete_where_email e t) = select_by_email e' t.
Proof.
  intros Hne. unfold select_by_email, delete_where_email.
  induction t as [|r t IH]; [done|]. rewrite filter_cons. cbn [find].
  destruct (decide (email r <> e)) as [Hr|Hr].
  - cbn [find]. by rewrite IH.
  - apply dec_stable in Hr.
    by assert (String.eqb (email r) e' = false) as ->
      by (apply String.eqb_neq; congruence).
Qed.

(** X18. [delete_lead] removes the lead and the details that name it and
    nothing else: the other leads and the other details stay. First write
    wins no longer holds for the address: imported again, it is a fresh gray
    lead, whatever the deleted one was. *)
Theorem delete_lead_removes_the_lead c manager e st row :
  get_campaign_manager (Some c) = Some manager ->
  csv_email row = e ->
  validate_email e = true ->
  let out :=
    delete_lead (Some ("admin", dashboard_password)) (Some e) (Some c) st in
  out.2 = Redirect ("/dashboard?campaign=" ++ c)
  /\ lead_at (db_path manager) e (leads_db out.1) = None
  /\ (forall e', e' <> e ->
        lead_at (db_path manager) e' (leads_db out.1)
        = lead_at (db_path manager) e' (leads_db st))
  /\ (forall x,
        x ∈ default [] (lead_details out.1 !! db_path manager) <->
        x ∈ default [] (lead_details st !! db_path manager)
        /\ detail_email x <> Some e)
  /\ exists s' counts r,
       Main.load_csv_to_db ctime hash_email validate_email [row] manager
         (leads_db out.1) = Some (s', counts)
       /\ lead_at (db_path manager) e s' = Some r
       /\ freshly_imported hash_email r.
Proof.
  intros Hm Hrow Hvalid out. subst out.
  assert (verify_password "admin" dashboard_password = Some "admin") as Hv
    by (by apply verify_password_Some).
  unfold Views.delete_lead. rewrite Hv. cbn [default from_option id].
  rewrite Hm. cbn [fst snd leads_db lead_details].
  unfold lead_at, get_db_path. rewrite leads_of_commit, lookup_insert_eq.
  cbn [default from_option id].
  split_and!; [done|apply select_by_email_delete| | |].
  - intros e' He'. by apply select_by_email_delete_ne.
  - intros x. unfold delete_details_where_email.
    rewrite list_elem_of_filter. split; intros [? ?]; by split.
  - set (s1 := commit (db_path manager) _ (leads_db st)).
    destruct (main_load_finds_the_address ctime hash_email validate_email [row]
                manager s1 row) as (s' & counts & r & Hload & Hlead & Hfresh);
      [by left|by rewrite Hrow|].
    exists s', counts, r. rewrite <- Hrow. split_and!; [done|done|].
    apply Hfresh. apply select_by_email_absent. subst s1.
    rewrite leads_of_commit, Hrow. apply select_by_email_delete.
Qed.

End DashboardActions.

(** X15, on the sample campaign: the password is wrong. *)
Lemma dashboard_actions_need_the_password_witness :
  let s := Sample.store [Sample.lead "a@x.com" "tok-a" "yellow" 2] in
  let st := {| leads_db := s; lead_details := ∅ |} in
  let guess := Some ("admin", "guess") in
  Server.move_lead Sample.registry Sample.stamp "secret" guess (Some "a@x.com")
    (Some "green") (Some "poland") s = (s, Unauthorized)
  /\ Views.update_notes Sample.registry "secret" guess (Some "a@x.com")
       (Some "called") (Some "poland") s = (s, Unauthorized)
  /\ Views.delete_lead Sample.registry "secret" guess (Some "a@x.com")
       (Some "poland") st = (st, Unauthorized).
Proof.
  intros s st guess.
  apply (dashboard_actions_need_the_password Sample.registry Sample.stamp
           "secret" guess (Some "a@x.com") (Some "green") (Some "called")
           (Some "poland") s st).
  discriminate.
Defined.

(** X16, on the sample campaign: no campaign is called [france]. *)
Lemma views_fail_on_an_unknown_campaign_witness :
  let s := Sample.store [Sample.lead "a@x.com" "tok-a" "yellow" 2] in
  let st := {| leads_db := s; lead_details := ∅ |} in
  let admin := Some ("admin", "secret") in
  let page := fun e h c : string => "unsubscribed" in
  Server.move_lead Sample.registry Sample.stamp "secret" admin (Some "a@x.com")
    (Some "green") (Some "france") s = (s, ServerError)
  /\ Views.update_notes Sample.registry "secret" admin (Some "a@x.com")
       (Some "called") (Some "france") s = (s, ServerError)
  /\ Views.delete_lead Sample.registry "secret" admin (Some "a@x.com")
       (Some "france") st = (st, ServerError)
  /\ Server.green Sample.registry Sample.stamp Sample.digest (Some "tok-a")
       (Some "france") s = (s, ServerError)
  /\ Views.red Sample.registry Sample.stamp Sample.digest page (Some "tok-a")
       (Some "france") s = (s, ServerError).
Proof.
  intros s st admin page.
  apply (views_fail_on_an_unknown_campaign Sample.registry Sample.stamp
           Sample.digest "secret" page "france" "tok-a" (Some "a@x.com")
           (Some "green") (Some "called") s st); run.
Defined.

(** X17, on the sample campaign: a note on [a@x.com]. *)
Lemma update_notes_writes_the_notes_only_witness :
  let r := Sample.lead "a@x.com" "tok-a" "yellow" 2 in
  let s := Sample.store [r; Sample.lead "b@x.com" "tok-b" "gray" 0] in
  let out :=
    Views.update_notes Sample.registry "secret" (Some ("admin", "secret"))
      (Some "a@x.com") (Some "called on Monday") (Some "poland") s in
  out.2 = Redirect "/dashboard?campaign=poland"
  /\ lead_at "poland.db" "a@x.com" out.1
     = Some (set_notes (Some "called on Monday") r)
  /\ (forall e', e' <> "a@x.com" ->
        lead_at "poland.db" e' out.1 = lead_at "poland.db" e' s)
  /\ clock out.1 = clock s
  /\ outbox out.1 = outbox s.
Proof.
  intros r s out.
  apply (update_notes_writes_the_notes_only Sample.registry "secret" "poland"
           Sample.poland "a@x.com" (Some "called on Monday") s r); run.
Defined.

(** X18, on the sample campaign: the green lead [a@x.com] is deleted and
    imported again. *)
Lemma delete_lead_removes_the_lead_witness :
  let s := Sample.store [Sample.lead "a@x.com" "tok-a" "green" 7] in
  let st := {| leads_db := s; lead_details := ∅ |} in
  let row := {| csv_email := "a@x.com"; csv_first_name := None |} in
  let out :=
    Views.delete_lead Sample.registry "secret" (Some ("admin", "secret"))
      (Some "a@x.com") (Some "poland") st in
  out.2 = Redirect "/dashboard?campaign=poland"
  /\ lead_at "poland.db" "a@x.com" (leads_db out.1) = None
  /\ exists s' counts r,
       Main.load_csv_to_db Sample.stamp Sample.digest Sample.validator [row]
         Sample.poland (leads_db out.1) = Some (s', counts)
       /\ lead_at "poland.db" "a@x.com" s' = Some r
       /\ freshly_imported Sample.digest r.
Proof.
  intros s st row out.
  destruct (delete_lead_removes_the_lead Sample.registry Sample.stamp
              Sample.digest Sample.validator "secret" "poland" Sample.poland
              "a@x.com" st row) as (Hresp & Hgone & _ & _ & Hagain); try run.
  split_and!; [exact Hresp | exact Hgone | exact Hagain].
Defined.

(** ** [send_email] of [scripts/main.py] *)

Section ScriptsSending.
Variable ctime : nat -> string.
Variable smtp_ok : list effect -> string -> bool.

Local Abbreviation scripts_send := (ScriptsSender.send_email smtp_ok).

Implicit Types (s : State) (r : Lead) (e db_path : string) (t : list Lead).

Lemma select_by_email_not_null e t :
  select_by_email e (map email_sent_not_null t)
  = email_sent_not_null <$> select_by_email e t.
Proof.
  unfold select_by_email. induction t as [|r t IH]; [done|]. cbn [map find].
  assert (email (email_sent_not_null r) = email r) as ->
    by (unfold email_sent_not_null; by destruct (email_sent r)).
  by destruct (String.eqb (email r) e).
Qed.

Lemma scripts_send_email_delivered e first_name db_path attachment s r :
  lead_at db_path e s = Some r ->
  ScriptsSender.decided (Some r) = false ->
  fits attachment ->
  smtp_ok (outbox s) e = true ->
  let out := scripts_send e first_name db_path attachment s in
  out.2 = true
  /\ outbox out.1 = (outbox s ++ [Smtp e true])%list
  /\ lead_at db_path e out.1 = Some (set_email_sent (Some 1) r).
Proof.
  intros Hr Hdecided Hfits Hok out. subst out. unfold lead_at in *.
  unfold ScriptsSender.send_email, Scripts.init_db.
  rewrite leads_of_commit, select_by_email_not_null, Hr. cbn [fmap option_fmap option_map].
  assert (ScriptsSender.decided (Some (email_sent_not_null r)) = false) as ->.
  { unfold email_sent_not_null. by destruct (email_sent r). }
  assert (match attachment with
          | Some size => Z.ltb (5 * 1024 * 1024) size
          | None => false
          end = false) as ->.
  { destruct attachment as [size|]; [|done]. simpl in Hfits. lia. }
  cbn [outbox commit]. rewrite Hok. cbn [fst snd outbox emit commit].
  rewrite leads_of_commit, leads_of_emit, leads_of_commit.
  rewrite select_by_email_update, select_by_email_not_null, Hr by done.
  split_and!; [done|done|]. cbn. f_equal.
  unfold email_sent_not_null. by destruct (email_sent r).
Qed.

(** X19. In [scripts/main.py] a delivered send to a lead that is neither
    green nor red sets [email_sent] to 1 and writes no other column: the
    [interact_count], the [timestamp] and the [sent_template] of the lead are
    as before. *)
Theorem scripts_send_records_email_sent_only
    e first_name db_path attachment s r :
  lead_at db_path e s = Some r ->
  ScriptsSender.decided (Some r) = false ->
  fits attachment ->
  smtp_ok (outbox s) e = true ->
  let out := scripts_send e first_name db_path attachment s in
  out.2 = true
  /\ exists r',
      lead_at db_path e out.1 = Some r'
      /\ email_sent r' = Some 1
      /\ interact_count r' = interact_count r
      /\ timestamp r' = timestamp r
      /\ sent_template r' = sent_template r
      /\ status r' = status r.
Proof.
  intros Hr Hdecided Hfits Hok out.
  destruct (scripts_send_email_delivered e first_name db_path attachment s r)
    as (Hres & _ & Hlead); [done..|].
  split; [done|]. by eexists.
Qed.

(** X20. A blue lead is skipped by [send_email] of [server.py] and of
    [main.py], which leave the state as it is, and is mailed by [send_email]
    of [scripts/main.py]. *)
Theorem blue_lead_is_mailed_by_the_script_only
    manager e first_name attachment template_path s r :
  lead_at (db_path manager) e s = Some r ->
  status r = Some "blue" ->
  fits attachment ->
  smtp_ok (outbox s) e = true ->
  Server.send_email ctime smtp_ok manager e first_name s = (s, false)
  /\ Main.send_email ctime smtp_ok manager e first_name attachment
       template_path s = (s, false)
  /\ (scripts_send e first_name (db_path manager) attachment s).2 = true
  /\ outbox (scripts_send e first_name (db_path manager) attachment s).1
     = (outbox s ++ [Smtp e true])%list.
Proof.
  intros Hr Hblue Hfits Hok.
  destruct (scripts_send_email_delivered e first_name (db_path manager)
              attachment s r) as (Hres & Hout & _); [done| |done|done|].
  { unfold ScriptsSender.decided. by rewrite Hblue. }
  unfold lead_at in Hr.
  unfold Server.send_email, Main.send_email, get_db_path, Server.decided.
  rewrite Hr, Hblue. by split_and!.
Qed.

End ScriptsSending.

(** X19, on the sample campaign: a delivered mail to the yellow lead
    [a@x.com]. *)
Lemma scripts_send_records_email_sent_only_witness :
  let r := Sample.lead "a@x.com" "tok-a" "yellow" 3 in
  let s := Sample.store [r] in
  let out :=
    ScriptsSender.send_email Sample.delivers "a@x.com" None "poland.db" None s in
  out.2 = true
  /\ exists r',
      lead_at "poland.db" "a@x.com" out.1 = Some r'
      /\ email_sent r' = Some 1
      /\ interact_count r' = Some 3
      /\ timestamp r' = Some (Sample.stamp 0)
      /\ sent_template r' = None
      /\ status r' = Some "yellow".
Proof.
  intros r s out.
  apply (scripts_send_records_email_sent_only Sample.delivers "a@x.com" None
           "poland.db" None s r); run.
Defined.

(** X20, on the sample campaign: [a@x.com] is blue. *)
Lemma blue_lead_is_mailed_by_the_script_only_witness :
  let s := Sample.store [Sample.lead "a@x.com" "tok-a" "blue" 3] in
  let scripted :=
    ScriptsSender.send_email Sample.delivers "a@x.com" None "poland.db" None s in
  Server.send_email Sample.stamp Sample.delivers Sample.poland "a@x.com" None s
  = (s, false)
  /\ Main.send_email Sample.stamp Sample.delivers Sample.poland "a@x.com" None
       None None s = (s, false)
  /\ scripted.2 = true
  /\ outbox scripted.1 = [Smtp "a@x.com" true].
Proof.
  intros s scripted.
  apply (blue_lead_is_mailed_by_the_script_only Sample.stamp Sample.delivers
           Sample.poland "a@x.com" None None None s
           (Sample.lead "a@x.com" "tok-a" "blue" 3)); run.
Defined.
